(** * Revenue summary service: cache-aside layer over a timezone-aware
      monthly aggregation

    Shallow embedding of
      - [backend/app/services/reservations.py]
        ([_format_decimal], [_get_property_timezone], [_get_latest_check_in],
         [calculate_monthly_revenue], [calculate_total_revenue]) and
      - [backend/app/services/cache.py] ([get_revenue_summary]).

    Python exceptions are an explicit [result] type, the database and the
    Redis client are explicit values threaded through the functions, Python
    dictionaries are finite maps from strings to Python values. *)

From Stdlib Require Import ZArith QArith Qround Lia List Bool Ascii String.
From stdpp Require Import base option strings gmap pretty.

Local Open Scope string_scope.
Local Open Scope Z_scope.

(* ===================================================================== *)
(** * Part I: definitions *)
(* ===================================================================== *)

(** ** Python values, exceptions and results *)

(** The exceptions the code can meet. All of them derive from Python's
    [Exception] class, which is what [except Exception] catches. *)
Inductive exn : Type :=
  | ImportError
  | DatabaseError          (* pool, session or statement failure *)
  | PoolNotAvailable       (* raise Exception("Database pool not available") *)
  | MultipleResultsFound   (* scalar_one_or_none() on two or more rows *)
  | ZoneInfoNotFoundError
  | ValueError
  | TypeError
  | OverflowError
  | InvalidOperation       (* decimal.InvalidOperation *)
  | KeyError
  | ConnectionError        (* redis.exceptions.ConnectionError *)
  | JSONDecodeError.

Inductive result (A : Type) : Type :=
  | Ok (a : A)
  | Raise (e : exn).
Arguments Ok {A} a.
Arguments Raise {A} e.

#[global] Instance result_ret : MRet result := fun A a => Ok a.
#[global] Instance result_bind : MBind result := fun A B f m =>
  match m with
  | Ok a => f a
  | Raise e => Raise e
  end.

(** [try: body except Exception: handler]. *)
Definition try_except {A} (body : result A) (handler : exn -> result A) : result A :=
  match body with
  | Ok a => Ok a
  | Raise e => handler e
  end.

(** A dependency call that either raises or returns nothing of interest. *)
Definition raising (e : option exn) : result unit :=
  match e with
  | Some x => Raise x
  | None => Ok tt
  end.

(** The values stored in the summary dictionaries. *)
Inductive pyval : Type :=
  | PStr (s : string)
  | PInt (z : Z)
  | PNone.

#[global] Instance pyval_eq_dec : EqDecision pyval.
Proof. solve_decision. Defined.

(** [Optional[int]] as a dictionary value. *)
Definition opt_int (o : option Z) : pyval :=
  match o with
  | Some z => PInt z
  | None => PNone
  end.

(** Truth value of an [Optional[int]]: [None] and [0] are false. *)
Definition truthy_int (o : option Z) : bool :=
  match o with
  | Some z => negb (z =? 0)
  | None => false
  end.

(** [a or b] on an [Optional[int]] and an [int]. *)
Definition or_int (o : option Z) (dflt : Z) : Z :=
  match o with
  | Some z => if z =? 0 then dflt else z
  | None => dflt
  end.

(** ** decimal.Decimal *)

(** A finite decimal: (-1)^sign * coefficient * 10^exponent. *)
Record finite_decimal : Type := mkFinite {
  dsign : bool;
  dcoeff : N;
  dexp : Z
}.

(** A [Decimal]: a finite number, an infinity, or the quiet NaN (the one
    a NUMERIC column can hold). *)
Inductive Decimal : Type :=
  | Finite (f : finite_decimal)
  | Infinity (negative : bool)
  | NaN.

(** The precision of the default decimal context. *)
Definition context_prec : Z := 28.

(** [Decimal(str(0))]. *)
Definition Decimal_zero : Decimal := Finite (mkFinite false 0%N 0).

(** [bool(d)]: a decimal is false exactly when it is zero; infinities and
    NaN are true. *)
Definition decimal_truthy (d : Decimal) : bool :=
  match d with
  | Finite f => negb (dcoeff f =? 0)%N
  | Infinity _ => true
  | NaN => true
  end.

(** Dropping the last [k > 0] digits of the coefficient [c]. *)
Definition rescale_half_up (c k : Z) : Z :=
  let q := c / 10 ^ k in
  let r := c mod 10 ^ k in
  if 10 ^ k <=? 2 * r then q + 1 else q.

Definition rescale_half_even (c k : Z) : Z :=
  let q := c / 10 ^ k in
  let r := c mod 10 ^ k in
  if 10 ^ k <? 2 * r then q + 1
  else if 10 ^ k =? 2 * r then (if Z.even q then q else q + 1)
  else q.

(** The coefficient of [d] at exponent [-2], with the given rule for
    dropped digits. *)
Definition coeff_at_cents (drop : Z -> Z -> Z) (d : finite_decimal) : Z :=
  let c := Z.of_N (dcoeff d) in
  let k := - 2 - dexp d in
  if k <=? 0 then c * 10 ^ (- k) else drop c k.

(** [d.quantize(Decimal("0.01"), rounding=ROUND_HALF_UP)] in the default
    context: a finite result keeps the sign, has exponent -2, and raises
    [InvalidOperation] when its coefficient needs more than [context_prec]
    digits; an infinity raises [InvalidOperation]; NaN is handed back. *)
Definition quantize_cents_half_up (d : Decimal) : result Decimal :=
  match d with
  | Finite f =>
    let c' := coeff_at_cents rescale_half_up f in
    if c' <? 10 ^ context_prec
    then Ok (Finite (mkFinite (dsign f) (Z.to_N c') (- 2)))
    else Raise InvalidOperation
  | Infinity _ => Raise InvalidOperation
  | NaN => Ok NaN
  end.

Definition digit_char (z : Z) : ascii := pretty_N_char (Z.to_N z).

Definition two_digits (z : Z) : string :=
  String (digit_char (z / 10)) (String (digit_char (z mod 10)) EmptyString).

(** reservations.py, lines 7-9:
<<
def _format_decimal(value: Decimal) -> str:
    return f"{value:.2f}"
>>
    The format rounds a finite value to two places with the context's
    rounding (ROUND_HALF_EVEN) and keeps the sign, also of a negative zero;
    an infinity and NaN are printed by name. *)
Definition _format_decimal (value : Decimal) : string :=
  match value with
  | Finite f =>
    let c' := coeff_at_cents rescale_half_even f in
    (if dsign f then "-" else "")
    +:+ pretty (c' / 100) +:+ "." +:+ two_digits (c' mod 100)
  | Infinity negative => (if negative then "-" else "") +:+ "Infinity"
  | NaN => "NaN"
  end.

(** [Decimal(str(raw or 0))]: [None] and a zero sum become [Decimal("0")];
    any other decimal survives the trip through [str] unchanged. *)
Definition decimal_or_zero (raw : option Decimal) : Decimal :=
  match raw with
  | Some d => if decimal_truthy d then d else Decimal_zero
  | None => Decimal_zero
  end.

(** reservations.py, lines 129-131 (and 205-207). *)
Definition round_revenue (raw : option Decimal) : result Decimal :=
  quantize_cents_half_up (decimal_or_zero raw).

(** ** datetime: the proleptic Gregorian calendar and time zones *)

Definition MINYEAR : Z := 1.
Definition MAXYEAR : Z := 9999.

Definition _DAYS_IN_MONTH : list Z :=
  [-1; 31; 28; 31; 30; 31; 30; 31; 31; 30; 31; 30; 31].
Definition _DAYS_BEFORE_MONTH : list Z :=
  [-1; 0; 31; 59; 90; 120; 151; 181; 212; 243; 273; 304; 334].

Definition table_at (t : list Z) (i : Z) : Z := nth (Z.to_nat i) t 0.

Definition _is_leap (year : Z) : bool :=
  (year mod 4 =? 0) && (negb (year mod 100 =? 0) || (year mod 400 =? 0)).

Definition _days_before_year (year : Z) : Z :=
  let y := year - 1 in y * 365 + y / 4 - y / 100 + y / 400.

Definition _days_in_month (year month : Z) : Z :=
  if (month =? 2) && _is_leap year then 29 else table_at _DAYS_IN_MONTH month.

Definition _days_before_month (year month : Z) : Z :=
  table_at _DAYS_BEFORE_MONTH month
  + (if (2 <? month) && _is_leap year then 1 else 0).

Definition _ymd2ord (year month day : Z) : Z :=
  _days_before_year year + _days_before_month year month + day.

Definition _DI400Y : Z := _days_before_year 401.
Definition _DI100Y : Z := _days_before_year 101.
Definition _DI4Y : Z := _days_before_year 5.

(** Ordinal (1 = 0001-01-01) to (year, month, day). *)
Definition _ord2ymd (ordinal : Z) : Z * Z * Z :=
  let n := ordinal - 1 in
  let n400 := n / _DI400Y in
  let n := n mod _DI400Y in
  let year := n400 * 400 + 1 in
  let n100 := n / _DI100Y in
  let n := n mod _DI100Y in
  let n4 := n / _DI4Y in
  let n := n mod _DI4Y in
  let n1 := n / 365 in
  let n := n mod 365 in
  let year := year + n100 * 100 + n4 * 4 + n1 in
  if (n1 =? 4) || (n100 =? 4) then (year - 1, 12, 31)
  else
    let leapyear := (n1 =? 3) && (negb (n4 =? 24) || (n100 =? 3)) in
    let month := Z.shiftr (n + 50) 5 in
    let preceding :=
      table_at _DAYS_BEFORE_MONTH month
      + (if (2 <? month) && leapyear then 1 else 0) in
    if n <? preceding then
      let month' := month - 1 in
      let preceding' :=
        preceding - (table_at _DAYS_IN_MONTH month'
                     + (if (month' =? 2) && leapyear then 1 else 0)) in
      (year, month', n - preceding' + 1)
    else (year, month, n - preceding + 1).

(** Microseconds in a day; a wall-clock reading is the number of
    microseconds since 0001-01-01T00:00:00. *)
Definition DAY : Z := 86400000000.
Definition HOUR : Z := 3600000000.

Definition MAXWALL : Z := _ymd2ord MAXYEAR 12 31 * DAY.

(** [datetime(year, month, day)] at midnight; [ValueError] outside the
    calendar. *)
Definition datetime_ymd (year month day : Z) : result Z :=
  if (MINYEAR <=? year) && (year <=? MAXYEAR)
     && (1 <=? month) && (month <=? 12)
     && (1 <=? day) && (day <=? _days_in_month year month)
  then Ok ((_ymd2ord year month day - 1) * DAY)
  else Raise ValueError.

Definition wall_year (w : Z) : Z := (_ord2ymd (w / DAY + 1)).1.1.
Definition wall_month (w : Z) : Z := (_ord2ymd (w / DAY + 1)).1.2.

(** A [tzinfo]: the offset from UTC of a local wall-clock reading (the
    first of two when the reading is ambiguous, [fold=0]), and the offset in
    force at a UTC reading, which [fromutc] adds. *)
Record tzinfo : Type := mk_tzinfo {
  utcoffset : Z -> Z;
  utcoffset_at_utc : Z -> Z
}.

(** [datetime.timezone.utc]. *)
Definition timezone_utc : tzinfo := mk_tzinfo (fun _ => 0) (fun _ => 0).

(** Date arithmetic leaves the calendar with [OverflowError]. *)
Definition in_calendar (w : Z) : result Z :=
  if (0 <=? w) && (w <? MAXWALL) then Ok w else Raise OverflowError.

(** [utcoffset()] must lie strictly within a day, else [ValueError]. *)
Definition checked_offset (off : Z) : result Z :=
  if (- DAY <? off) && (off <? DAY) then Ok off else Raise ValueError.

(** [dt.astimezone(target)] for [dt] reading [w] in zone [src]: the local
    reading in [target] of the same instant. *)
Definition astimezone (src : tzinfo) (w : Z) (target : tzinfo) : result Z :=
  off ← checked_offset (utcoffset src w);
  utc ← in_calendar (w - off);
  in_calendar (utc + utcoffset_at_utc target utc).

(** ** The database *)

(** A NUMERIC value: [units / 10 ^ scale], NaN, or an infinity. *)
Inductive Numeric : Type :=
  | mkNumeric (units : Z) (scale : N)
  | NumericNaN
  | NumericInfinity (negative : bool).

Record PropertyRow : Type := mkProperty {
  prop_id : string;
  prop_tenant_id : string;
  prop_timezone : option string
}.

Record ReservationRow : Type := mkReservation {
  res_property_id : string;
  res_tenant_id : string;
  res_check_in_date : Z;        (* the instant, as a UTC reading *)
  res_total_amount : Numeric
}.

(** What the driver hands back for a timestamp column: the reading and,
    for a timezone-aware column, its (UTC) tzinfo. *)
Record db_datetime : Type := mk_db_datetime {
  dt_wall : Z;
  dt_tzinfo : option tzinfo
}.

(** The row of the monthly and of the all-time aggregate. *)
Record RevenueRow : Type := mkRevenueRow {
  total_revenue : option Decimal;
  reservation_count : Z
}.

(** [app.core.database_pool.DatabasePool] is not part of the two services;
    its behaviour is a parameter: each step may raise, and a session runs
    statements over the two tables. *)
Record DatabasePool : Type := mkDatabasePool {
  import_error : option exn;          (* from app.core.database_pool import ... *)
  initialize_error : option exn;      (* await db_pool.initialize() *)
  session_factory : bool;             (* truth value of db_pool.session_factory *)
  get_session_error : option exn;     (* entering the session context *)
  timezone_query_error : option exn;  (* session.execute of each statement *)
  latest_query_error : option exn;
  revenue_query_error : option exn;
  total_query_error : option exn;
  session_exit_error : option exn;    (* leaving the session context *)
  timestamps_naive : bool;            (* timestamp column without time zone *)
  properties : list PropertyRow;
  reservations : list ReservationRow
}.

(** The process environment of the aggregation service. *)
Record Env : Type := mkEnv {
  db_pool : DatabasePool;
  ZoneInfo_db : string -> option tzinfo;  (* the IANA database *)
  clock_utc : Z                           (* datetime.now(timezone.utc) *)
}.

(** [ZoneInfo(key)]. *)
Definition ZoneInfo (env : Env) (key : string) : result tzinfo :=
  match ZoneInfo_db env key with
  | Some tz => Ok tz
  | None => Raise ZoneInfoNotFoundError
  end.

(** [async with db_pool.get_session() as session: body]. *)
Definition with_session {A} (pool : DatabasePool) (body : result A) : result A :=
  raising (get_session_error pool);;
  a ← body;
  raising (session_exit_error pool);;
  Ok a.

(** *** SQL *)

(** Sum of NUMERIC values: exact, at the larger scale, for finite values;
    NaN with a NaN or with infinities of both signs; else the infinity. *)
Definition numeric_add (a b : Numeric) : Numeric :=
  match a, b with
  | NumericNaN, _ | _, NumericNaN => NumericNaN
  | NumericInfinity sa, NumericInfinity sb =>
    if Bool.eqb sa sb then NumericInfinity sa else NumericNaN
  | NumericInfinity sa, mkNumeric _ _ => NumericInfinity sa
  | mkNumeric _ _, NumericInfinity sb => NumericInfinity sb
  | mkNumeric ua sa, mkNumeric ub sb =>
    let s := N.max sa sb in
    mkNumeric (ua * 10 ^ Z.of_N (s - sa) + ub * 10 ^ Z.of_N (s - sb)) s
  end.

(** [SUM(...)]: NULL over no rows. *)
Fixpoint sql_sum (l : list Numeric) : option Numeric :=
  match l with
  | [] => None
  | x :: r =>
    match sql_sum r with
    | None => Some x
    | Some s => Some (numeric_add x s)
    end
  end.

(** [MAX(...)]: NULL over no rows. *)
Fixpoint sql_max (l : list Z) : option Z :=
  match l with
  | [] => None
  | x :: r =>
    match sql_max r with
    | None => Some x
    | Some m => Some (Z.max x m)
    end
  end.

(** The driver's conversion of a NUMERIC to [decimal.Decimal]. *)
Definition Decimal_of_numeric (n : Numeric) : Decimal :=
  match n with
  | mkNumeric units scale =>
    Finite (mkFinite (units <? 0) (Z.abs_N units) (- Z.of_N scale))
  | NumericNaN => NaN
  | NumericInfinity negative => Infinity negative
  end.

(** [WHERE property_id = :property_id AND tenant_id = :tenant_id]. *)
Definition of_property (property_id tenant_id : string) (r : ReservationRow) : bool :=
  String.eqb (res_property_id r) property_id
  && String.eqb (res_tenant_id r) tenant_id.

(** [... AND check_in_date >= :start_date AND check_in_date < :end_date]. *)
Definition in_window (property_id tenant_id : string) (start_date end_date : Z)
    (r : ReservationRow) : bool :=
  of_property property_id tenant_id r
  && (start_date <=? res_check_in_date r)
  && (res_check_in_date r <? end_date).

Definition aggregate (rows : list ReservationRow) : RevenueRow :=
  mkRevenueRow
    (Decimal_of_numeric <$> sql_sum (res_total_amount <$> rows))
    (Z.of_nat (length rows)).

(** The statement of lines 104-115; an aggregate without GROUP BY always
    yields one row. *)
Definition sql_monthly_revenue (pool : DatabasePool)
    (property_id tenant_id : string) (start_date end_date : Z)
    : option RevenueRow :=
  Some (aggregate
    (filter (fun r => in_window property_id tenant_id start_date end_date r)
            (reservations pool))).

(** The statement of lines 188-196; with GROUP BY there is no row when no
    reservation matches. *)
Definition sql_total_revenue (pool : DatabasePool)
    (property_id tenant_id : string) : option RevenueRow :=
  match filter (fun r => of_property property_id tenant_id r) (reservations pool) with
  | [] => None
  | rows => Some (aggregate rows)
  end.

(** [scalar_one_or_none()] over the rows of a one-column result. *)
Definition scalar_one_or_none {A} (rows : list (option A)) : result (option A) :=
  match rows with
  | [] => Ok None
  | [v] => Ok v
  | _ => Raise MultipleResultsFound
  end.

(** ** Dictionaries *)

(** A dict literal. *)
Definition dict (items : list (string * pyval)) : gmap string pyval :=
  list_to_map items.

(** [d[key]]. *)
Definition subscript (d : gmap string pyval) (key : string) : result pyval :=
  match d !! key with
  | Some v => Ok v
  | None => Raise KeyError
  end.

(** ** Mutable locals and errors together *)

(** A computation over a mutable state [S] that may raise: the state
    reached is kept when it raises, as a handler reads it afterwards. *)
Definition M (S A : Type) : Type := S -> S * result A.

#[global] Instance M_ret {S} : MRet (M S) := fun A a s => (s, Ok a).
#[global] Instance M_bind {S} : MBind (M S) := fun A B f m s =>
  match m s with
  | (s', Ok a) => f a s'
  | (s', Raise e) => (s', Raise e)
  end.

Definition lift {S A} (r : result A) : M S A := fun s => (s, r).
Definition get_state {S} : M S S := fun s => (s, Ok s).
Definition put_state {S} (s' : S) : M S unit := fun _ => (s', Ok tt).

(** ** reservations.py *)

(** lines 12-26 *)
Definition _get_property_timezone (pool : DatabasePool)
    (property_id tenant_id : string) : result string :=
  raising (timezone_query_error pool);;
  timezone_name ← scalar_one_or_none
    (prop_timezone <$>
       filter (fun p => String.eqb (prop_id p) property_id
                        && String.eqb (prop_tenant_id p) tenant_id)
              (properties pool));
  Ok (match timezone_name with
      | Some name => if String.eqb name "" then "UTC" else name
      | None => "UTC"
      end).

(** The Python value of a stored instant. *)
Definition driver_datetime (pool : DatabasePool) (instant : Z) : db_datetime :=
  mk_db_datetime instant
    (if timestamps_naive pool then None else Some timezone_utc).

(** The check-in instants of the reservations of a property and tenant. *)
Definition check_ins (pool : DatabasePool) (property_id tenant_id : string)
    : list Z :=
  res_check_in_date <$>
    filter (fun r => of_property property_id tenant_id r) (reservations pool).

(** lines 29-42 *)
Definition _get_latest_check_in (pool : DatabasePool)
    (property_id tenant_id : string) : result (option db_datetime) :=
  raising (latest_query_error pool);;
  Ok (driver_datetime pool <$> sql_max (check_ins pool property_id tenant_id)).

(** The locals [month] and [year] of [calculate_monthly_revenue], which the
    body reassigns and the handler reads. *)
Record period : Type := mkPeriod {
  p_month : option Z;
  p_year : option Z
}.

(** An [Optional[int]] where Python needs an [int]. *)
Definition as_int (o : option Z) : result Z :=
  match o with
  | Some z => Ok z
  | None => Raise TypeError
  end.

(** lines 77-89 *)
Definition resolve_period (env : Env) (local_tz : tzinfo)
    (property_id tenant_id : string) : M period unit :=
  p ← get_state;
  if negb (truthy_int (p_month p)) || negb (truthy_int (p_year p)) then
    latest_check_in ← lift (_get_latest_check_in (db_pool env) property_id tenant_id);
    match latest_check_in with
    | Some latest =>
      let tz := match dt_tzinfo latest with
                | None => timezone_utc
                | Some tz => tz
                end in
      latest_local ← lift (astimezone tz (dt_wall latest) local_tz);
      put_state (mkPeriod (Some (wall_month latest_local))
                          (Some (wall_year latest_local)))
    | None =>
      now_local ← lift (astimezone timezone_utc (clock_utc env) local_tz);
      put_state (mkPeriod (Some (or_int (p_month p) (wall_month now_local)))
                          (Some (or_int (p_year p) (wall_year now_local))))
    end
  else mret tt.

(** lines 92-99: the UTC bounds of the local calendar month. *)
Definition month_bounds (local_tz : tzinfo) (year month : Z) : result (Z * Z) :=
  start_local ← datetime_ymd year month 1;
  end_local ← (if month <? 12 then datetime_ymd year (month + 1) 1
               else datetime_ymd (year + 1) 1 1);
  start_utc ← astimezone local_tz start_local timezone_utc;
  end_utc ← astimezone local_tz end_local timezone_utc;
  Ok (start_utc, end_utc).

(** lines 69-74: the zone named by the property, or UTC when it does not
    load. *)
Definition resolve_timezone (env : Env) (property_id tenant_id : string)
    : result (string * tzinfo) :=
  property_tz ← _get_property_timezone (db_pool env) property_id tenant_id;
  try_except (local_tz ← ZoneInfo env property_tz; Ok (property_tz, local_tz))
             (fun _ => local_tz ← ZoneInfo env "UTC"; Ok ("UTC", local_tz)).

(** lines 57-143: the body of the [try]. *)
Definition monthly_body (env : Env) (property_id tenant_id : string)
    : M period (gmap string pyval) :=
  let pool := db_pool env in
  lift (raising (import_error pool));;
  lift (raising (initialize_error pool));;
  lift (if session_factory pool then Ok tt else Raise PoolNotAvailable);;
  lift (raising (get_session_error pool));;
  '(property_tz, local_tz) ← lift (resolve_timezone env property_id tenant_id);
  resolve_period env local_tz property_id tenant_id;;
  p ← get_state;
  month ← lift (as_int (p_month p));
  year ← lift (as_int (p_year p));
  '(start_utc, end_utc) ← lift (month_bounds local_tz year month);
  lift (raising (revenue_query_error pool));;
  let row := sql_monthly_revenue pool property_id tenant_id start_utc end_utc in
  let total_revenue_raw := row ≫= total_revenue in
  total_revenue ← lift (round_revenue total_revenue_raw);
  let reservation_count :=
    match row with
    | Some r => reservation_count r
    | None => 0
    end in
  lift (raising (session_exit_error pool));;
  mret (dict [("property_id", PStr property_id);
              ("tenant_id", PStr tenant_id);
              ("total", PStr (_format_decimal total_revenue));
              ("currency", PStr "USD");
              ("count", PInt reservation_count);
              ("month", PInt month);
              ("year", PInt year);
              ("timezone", PStr property_tz)]).

(** lines 150-156 *)
Definition mock_data : gmap string (gmap string pyval) :=
  list_to_map
    [("prop-001", dict [("total", PStr "1000.00"); ("count", PInt 3)]);
     ("prop-002", dict [("total", PStr "4975.50"); ("count", PInt 4)]);
     ("prop-003", dict [("total", PStr "6100.50"); ("count", PInt 2)]);
     ("prop-004", dict [("total", PStr "1776.50"); ("count", PInt 4)]);
     ("prop-005", dict [("total", PStr "3256.00"); ("count", PInt 3)])].

(** lines 145-169: the handler. *)
Definition monthly_handler (property_id tenant_id : string) (p : period)
    : result (gmap string pyval) :=
  let mock_property_data :=
    default (dict [("total", PStr "0.00"); ("count", PInt 0)])
            (mock_data !! property_id) in
  total ← subscript mock_property_data "total";
  count ← subscript mock_property_data "count";
  Ok (dict [("property_id", PStr property_id);
            ("tenant_id", PStr tenant_id);
            ("total", total);
            ("currency", PStr "USD");
            ("count", count);
            ("month", opt_int (p_month p));
            ("year", opt_int (p_year p));
            ("timezone", PStr "UTC")]).

(** lines 45-169 *)
Definition calculate_monthly_revenue (env : Env) (property_id tenant_id : string)
    (month year : option Z) : result (gmap string pyval) :=
  let '(p, r) := monthly_body env property_id tenant_id (mkPeriod month year) in
  try_except r (fun _ => monthly_handler property_id tenant_id p).

(** lines 176-225: the body of the [try] of [calculate_total_revenue]. *)
Definition total_body (env : Env) (property_id tenant_id : string)
    : result (gmap string pyval) :=
  let pool := db_pool env in
  raising (import_error pool);;
  raising (initialize_error pool);;
  if session_factory pool then
    with_session pool
      (raising (total_query_error pool);;
       match sql_total_revenue pool property_id tenant_id with
       | Some row =>
         total_revenue ← round_revenue (total_revenue row);
         Ok (dict [("property_id", PStr property_id);
                   ("tenant_id", PStr tenant_id);
                   ("total", PStr (_format_decimal total_revenue));
                   ("currency", PStr "USD");
                   ("count", PInt (reservation_count row))])
       | None =>
         Ok (dict [("property_id", PStr property_id);
                   ("tenant_id", PStr tenant_id);
                   ("total", PStr "0.00");
                   ("currency", PStr "USD");
                   ("count", PInt 0)])
       end)
  else Raise PoolNotAvailable.

(** lines 232-238: the second literal of the table. *)
Definition mock_data_total : gmap string (gmap string pyval) :=
  list_to_map
    [("prop-001", dict [("total", PStr "1000.00"); ("count", PInt 3)]);
     ("prop-002", dict [("total", PStr "4975.50"); ("count", PInt 4)]);
     ("prop-003", dict [("total", PStr "6100.50"); ("count", PInt 2)]);
     ("prop-004", dict [("total", PStr "1776.50"); ("count", PInt 4)]);
     ("prop-005", dict [("total", PStr "3256.00"); ("count", PInt 3)])].

(** lines 227-248: the handler. *)
Definition total_handler (property_id tenant_id : string)
    : result (gmap string pyval) :=
  let mock_property_data :=
    default (dict [("total", PStr "0.00"); ("count", PInt 0)])
            (mock_data_total !! property_id) in
  total ← subscript mock_property_data "total";
  count ← subscript mock_property_data "count";
  Ok (dict [("property_id", PStr property_id);
            ("tenant_id", PStr tenant_id);
            ("total", total);
            ("currency", PStr "USD");
            ("count", count)]).

(** lines 171-248 *)
Definition calculate_total_revenue (env : Env) (property_id tenant_id : string)
    : result (gmap string pyval) :=
  try_except (total_body env property_id tenant_id)
             (fun _ => total_handler property_id tenant_id).

(** ** cache.py *)

(** A Redis key with its value and the time it expires at (seconds). *)
Record RedisEntry : Type := mkRedisEntry {
  entry_value : string;
  entry_expires_at : Z
}.

(** The Redis server as the client sees it: each command may fail. *)
Record Redis : Type := mkRedis {
  redis_get_error : option exn;
  redis_setex_error : option exn;
  redis_time : Z;
  redis_store : gmap string RedisEntry
}.

(** [GET key]: absent when never set or expired. *)
Definition redis_get (r : Redis) (key : string) : result (option string) :=
  raising (redis_get_error r);;
  Ok (match redis_store r !! key with
      | Some e => if redis_time r <? entry_expires_at e
                  then Some (entry_value e) else None
      | None => None
      end).

(** [SETEX key seconds value]. *)
Definition redis_setex (r : Redis) (key : string) (seconds : Z) (value : string)
    : result Redis :=
  raising (redis_setex_error r);;
  Ok (mkRedis (redis_get_error r) (redis_setex_error r) (redis_time r)
        (<[key := mkRedisEntry value (redis_time r + seconds)]> (redis_store r))).

(** [json.dumps] and [json.loads] on summaries. *)
Record Json : Type := mkJson {
  json_dumps : gmap string pyval -> string;
  json_loads : string -> result (gmap string pyval)
}.

(** One call of the aggregator, as the cache layer makes it. *)
Record AggregatorCall : Type := mkCall {
  call_property_id : string;
  call_tenant_id : string;
  call_month : option Z;
  call_year : option Z
}.

(** What [get_revenue_summary] acts on: the module-level [redis_client] and
    the calls made to [calculate_monthly_revenue] so far. *)
Record World : Type := mkWorld {
  redis_client : Redis;
  aggregator_calls : list AggregatorCall
}.

(** [f"{x}"] of an [Optional[int]]. *)
Definition format_opt_int (o : option Z) : string :=
  match o with
  | Some z => pretty z
  | None => "None"
  end.

(** lines 18-19 *)
Definition cache_scope (month year : option Z) : string :=
  if truthy_int month && truthy_int year
  then format_opt_int year +:+ "-" +:+ format_opt_int month
  else "latest".

Definition cache_key (property_id tenant_id : string) (month year : option Z)
    : string :=
  "revenue:" +:+ tenant_id +:+ ":" +:+ property_id +:+ ":"
  +:+ cache_scope month year.

(** Truth value of [Optional[bytes]]: [None] and [b""] are false. *)
Definition truthy_bytes (o : option string) : bool :=
  match o with
  | Some EmptyString => false
  | Some _ => true
  | None => false
  end.

Definition await_get (key : string) : M World (option string) :=
  w ← get_state;
  lift (redis_get (redis_client w) key).

Definition await_setex (key : string) (seconds : Z) (value : string)
    : M World unit :=
  w ← get_state;
  r ← lift (redis_setex (redis_client w) key seconds value);
  put_state (mkWorld r (aggregator_calls w)).

Definition await_calculate_monthly_revenue (env : Env)
    (property_id tenant_id : string) (month year : option Z)
    : M World (gmap string pyval) :=
  w ← get_state;
  put_state (mkWorld (redis_client w)
               (aggregator_calls w
                ++ [mkCall property_id tenant_id month year]));;
  lift (calculate_monthly_revenue env property_id tenant_id month year).

(** lines 9-35 *)
Definition get_revenue_summary (json : Json) (env : Env)
    (property_id tenant_id : string) (month year : option Z)
    : M World (gmap string pyval) :=
  let cache_key := cache_key property_id tenant_id month year in
  cached ← await_get cache_key;
  if truthy_bytes cached then
    lift (json_loads json (default "" cached))
  else
    result ← await_calculate_monthly_revenue env property_id tenant_id month year;
    await_setex cache_key 300 (json_dumps json result);;
    mret result.

(** Time passing on the Redis server. *)
Definition elapse (dt : Z) (w : World) : World :=
  let r := redis_client w in
  mkWorld (mkRedis (redis_get_error r) (redis_setex_error r)
             (redis_time r + dt) (redis_store r))
          (aggregator_calls w).

(** ** dashboard.py *)

(** What the route hands back: a response, an HTTP error raised by the
    route or by the framework, or an exception it does not handle. *)
Inductive http_result (A : Type) : Type :=
  | Response (a : A)
  | HTTPException (status_code : Z) (detail : string)
  | Unhandled (e : exn).
Arguments Response {A} a.
Arguments HTTPException {A} status_code detail.
Arguments Unhandled {A} e.

(** [current_user]: an object with, maybe, a [tenant_id] attribute, or a
    dict with, maybe, a "tenant_id" entry; the tenant is a string or None. *)
Inductive current_user : Type :=
  | UserObject (tenant_id : option string)
  | UserDict (tenant_id : option string).

(** lines 17-19 *)
Definition resolve_tenant (user : current_user) : option string :=
  let tenant_id :=                       (* getattr(current_user, "tenant_id", None) *)
    match user with
    | UserObject t => t
    | UserDict _ => None
    end in
  match tenant_id, user with
  | None, UserDict t => t                (* current_user.get("tenant_id") *)
  | _, _ => tenant_id
  end.

(** Truth value of an [Optional[str]]: [None] and [""] are false. *)
Definition truthy_str (o : option string) : bool :=
  match o with
  | Some EmptyString => false
  | Some _ => true
  | None => false
  end.

(** [Query(None, ge=lo, le=hi)]: the framework refuses a present value
    outside the bounds before the route runs. *)
Definition query_in_bounds (lo hi : Z) (o : option Z) : bool :=
  match o with
  | Some z => (lo <=? z) && (z <=? hi)
  | None => true
  end.

(** The values of the response: those of the summary, and the float made
    of a decimal, kept as that decimal. *)
Inductive response_val : Type :=
  | RVal (v : pyval)
  | RFloat (d : Decimal).

(** [Decimal(v)] for a value of the summary; the reading of a string is a
    parameter. *)
Definition Decimal_of_pyval (Decimal_of_str : string -> result Decimal)
    (v : pyval) : result Decimal :=
  match v with
  | PStr s => Decimal_of_str s
  | PInt z => Ok (Finite (mkFinite (z <? 0) (Z.abs_N z) 0))
  | PNone => Raise TypeError
  end.

(** [d.get(key)]. *)
Definition dict_get (d : gmap string pyval) (key : string) : pyval :=
  default PNone (d !! key).

(** lines 27-42: the route once tenant, month and year are accepted. *)
Definition dashboard_response (Decimal_of_str : string -> result Decimal)
    (revenue_data : gmap string pyval) : result (gmap string response_val) :=
  total ← subscript revenue_data "total";
  parsed ← Decimal_of_pyval Decimal_of_str total;
  total_revenue_decimal ← quantize_cents_half_up parsed;
  let total_revenue_float := RFloat total_revenue_decimal in
  property_id ← subscript revenue_data "property_id";
  currency ← subscript revenue_data "currency";
  count ← subscript revenue_data "count";
  Ok (list_to_map
        [("property_id", RVal property_id);
         ("total_revenue", total_revenue_float);
         ("currency", RVal currency);
         ("reservations_count", RVal count);
         ("month", RVal (dict_get revenue_data "month"));
         ("year", RVal (dict_get revenue_data "year"));
         ("timezone", RVal (dict_get revenue_data "timezone"))]).

(** lines 9-42 *)
Definition get_dashboard_summary (json : Json)
    (Decimal_of_str : string -> result Decimal) (env : Env)
    (property_id : string) (month year : option Z) (user : current_user)
    (w : World) : World * http_result (gmap string response_val) :=
  if negb (query_in_bounds 1 12 month && query_in_bounds 2000 2100 year) then
    (w, HTTPException 422 "Unprocessable Entity")
  else
    let tenant_id := resolve_tenant user in
    if negb (truthy_str tenant_id) then
      (w, HTTPException 400 "Tenant not resolved for current user")
    else if xorb (bool_decide (month = None)) (bool_decide (year = None)) then
      (w, HTTPException 400 "Both month and year must be provided together")
    else
      match get_revenue_summary json env property_id (default "" tenant_id)
              month year w with
      | (w', Raise e) => (w', Unhandled e)
      | (w', Ok revenue_data) =>
        match dashboard_response Decimal_of_str revenue_data with
        | Ok response => (w', Response response)
        | Raise e => (w', Unhandled e)
        end
      end.

(** ** What the specification speaks of *)

(** The reservations of a property and tenant. *)
Definition property_rows (pool : DatabasePool) (property_id tenant_id : string)
    : list ReservationRow :=
  filter (fun r => of_property property_id tenant_id r) (reservations pool).


(** The magnitude of a finite decimal as a rational number. *)
Definition Decimal_magnitude (d : finite_decimal) : Q :=
  let c := Z.of_N (dcoeff d) in
  if 0 <=? dexp d then inject_Z (c * 10 ^ dexp d)
  else Qmake c (Z.to_pos (10 ^ (- dexp d))).

(** A non-negative amount in whole cents, halves rounded upwards:
    the integer [n] with [n - 1/2 <= 100 x < n + 1/2]. *)
Definition spec_half_up_cents (x : Q) : Z := Qfloor (x * 100 + (1 # 2)).

(** The text of [n] cents with the given sign: digits, a point, two
    digits. *)
Definition cents_text (negative : bool) (n : Z) : string :=
  (if negative then "-" else "")
  +:+ pretty (n / 100) +:+ "."
  +:+ String (digit_char (n mod 100 / 10))
        (String (digit_char (n mod 10)) EmptyString).

(** The text the rounding and the format give for the sum [d] when they
    return: cents for a finite sum, the name for NaN. *)
Definition total_text (d : Decimal) : string :=
  match d with
  | Finite f => cents_text (dsign f) (spec_half_up_cents (Decimal_magnitude f))
  | Infinity negative => (if negative then "-" else "") +:+ "Infinity"
  | NaN => "NaN"
  end.

(** A summary is well formed: a text under "total" and a non-negative
    integer under "count". *)
Definition well_formed (s : gmap string pyval) : Prop :=
  (exists total, s !! "total" = Some (PStr total))
  /\ (exists count, s !! "count" = Some (PInt count) /\ 0 <= count).

(** The store cannot be reached: no session is ever opened. *)
Definition store_unavailable (pool : DatabasePool) : Prop :=
  import_error pool <> None \/ initialize_error pool <> None
  \/ session_factory pool = false \/ get_session_error pool <> None.

(** The entry of the fallback table that serves a property. *)
Definition mock_property_data (property_id : string) : gmap string pyval :=
  default (dict [("total", PStr "0.00"); ("count", PInt 0)])
          (mock_data !! property_id).

(** Local midnight on a day, as a wall-clock reading. *)
Definition midnight (year month day : Z) : Z :=
  (_ymd2ord year month day - 1) * DAY.

(** Local midnight on the first day of the month after (year, month);
    December rolls into January of the next year. *)
Definition next_month_midnight (year month : Z) : Z :=
  if month =? 12 then midnight (year + 1) 1 1 else midnight year (month + 1) 1.

(** A local reading converted to UTC. *)
Definition to_utc (tz : tzinfo) (w : Z) : Z := w - utcoffset tz w.

(** A UTC reading converted to local time. *)
Definition to_local (tz : tzinfo) (u : Z) : Z := u + utcoffset_at_utc tz u.

(** The scope of a cache key as the specification words it. *)
Definition spec_scope (month year : option Z) : string :=
  match month, year with
  | Some m, Some y => pretty y +:+ "-" +:+ pretty m
  | _, _ => "latest"
  end.

(** Whether a character occurs in a string. *)
Fixpoint occurs (c : ascii) (s : string) : bool :=
  match s with
  | EmptyString => false
  | String a r => Ascii.eqb a c || occurs c r
  end.

(** ** Sample data *)

(** The reading of a UTC date and hour. *)
Definition reading (year month day hour : Z) : Z :=
  (_ymd2ord year month day - 1) * DAY + hour * HOUR.

(** America/New_York as it stands in 2024: UTC-5, and UTC-4 from
    2024-03-10T07:00Z to 2024-11-03T06:00Z. Locally the clock jumps from
    02:00 to 03:00 on March 10 and repeats 01:00-02:00 on November 3. *)
Definition New_York_2024 : tzinfo :=
  mk_tzinfo
    (fun w => if (reading 2024 3 10 3 <=? w) && (w <? reading 2024 11 3 2)
              then - 4 * HOUR else - 5 * HOUR)
    (fun u => if (reading 2024 3 10 7 <=? u) && (u <? reading 2024 11 3 6)
              then - 4 * HOUR else - 5 * HOUR).

Definition sample_zones (key : string) : option tzinfo :=
  if String.eqb key "UTC" then Some timezone_utc
  else if String.eqb key "America/New_York" then Some New_York_2024
  else None.

Definition sample_reservations : list ReservationRow :=
  [mkReservation "prop-ny" "tenant-a" (reading 2024 3 1 5) (mkNumeric 20000 2);
   mkReservation "prop-ny" "tenant-a" (reading 2024 3 5 12) (mkNumeric 20000 2);
   mkReservation "prop-ny" "tenant-a" (reading 2024 3 10 7) (mkNumeric 20000 2);
   mkReservation "prop-ny" "tenant-a" (reading 2024 3 15 0) (mkNumeric 20000 2);
   mkReservation "prop-ny" "tenant-a" (reading 2024 3 20 18) (mkNumeric 20000 2);
   mkReservation "prop-ny" "tenant-a" (reading 2024 3 28 9) (mkNumeric 20000 2);
   mkReservation "prop-ny" "tenant-a" (reading 2024 4 1 3) (mkNumeric 34505 3);
   mkReservation "prop-ny" "tenant-a" (reading 2024 3 1 4) (mkNumeric 99900 2);
   mkReservation "prop-ny" "tenant-a" (reading 2024 4 1 4) (mkNumeric 5000 2);
   mkReservation "prop-ny" "tenant-b" (reading 2024 3 9 0) (mkNumeric 77700 2);
   mkReservation "prop-ny" "tenant-b" (reading 2024 8 20 15) (mkNumeric 12300 2);
   mkReservation "prop-002" "tenant-a" (reading 2024 3 9 0) (mkNumeric 100000026 0);
   mkReservation "prop-003" "tenant-a" (reading 2024 9 2 10) (mkNumeric 45000 2)].

Definition sample_properties : list PropertyRow :=
  [mkProperty "prop-ny" "tenant-a" (Some "America/New_York");
   mkProperty "prop-002" "tenant-a" None;
   mkProperty "prop-lost" "tenant-a" (Some "Mars/Olympus_Mons")].

(** A pool in working order over the sample tables. *)
Definition sample_pool : DatabasePool :=
  mkDatabasePool None None true None None None None None None false
    sample_properties sample_reservations.

(** The same pool with the store unreachable. *)
Definition pool_down : DatabasePool :=
  mkDatabasePool None (Some DatabaseError) false None None None None None None
    false sample_properties sample_reservations.

(** A pool whose revenue statement fails after the period was resolved. *)
Definition pool_query_fails : DatabasePool :=
  mkDatabasePool None None true None None None (Some DatabaseError) None None
    false sample_properties sample_reservations.

(** A pool with one reservation of 10^26 in March 2024. *)
Definition pool_huge : DatabasePool :=
  mkDatabasePool None None true None None None None None None false
    sample_properties
    [mkReservation "prop-002" "tenant-a" (reading 2024 3 9 0)
       (mkNumeric (10 ^ 26) 0)].

(** A pool with one reservation in March 2024 whose amount is NaN. *)
Definition pool_nan : DatabasePool :=
  mkDatabasePool None None true None None None None None None false
    sample_properties
    [mkReservation "prop-002" "tenant-a" (reading 2024 3 9 0) NumericNaN].

(** A pool over a property without reservations. *)
Definition pool_empty : DatabasePool :=
  mkDatabasePool None None true None None None None None None true
    sample_properties [].

Definition sample_env : Env := mkEnv sample_pool sample_zones (reading 2024 6 15 12).
Definition env_down : Env := mkEnv pool_down sample_zones (reading 2024 6 15 12).
Definition env_query_fails : Env :=
  mkEnv pool_query_fails sample_zones (reading 2024 6 15 12).
Definition env_huge : Env := mkEnv pool_huge sample_zones (reading 2024 6 15 12).
Definition env_nan : Env := mkEnv pool_nan sample_zones (reading 2024 6 15 12).
Definition env_empty : Env := mkEnv pool_empty sample_zones (reading 2024 7 1 2).

(** A stand-in for the JSON codec: only the [total] and [count] are kept. *)
Definition sample_json : Json :=
  mkJson
    (fun d => "{" +:+ match d !! "total" with
                      | Some (PStr t) => t
                      | _ => "null"
                      end +:+ "}")
    (fun s => Ok (dict [("total", PStr s)])).

(** A stand-in for [Decimal(str)]: the texts the samples meet. *)
Definition sample_Decimal_of_str (s : string) : result Decimal :=
  if String.eqb s "1234.51" then Ok (Finite (mkFinite false 123451 (- 2)))
  else if String.eqb s "NaN" then Ok NaN
  else Raise InvalidOperation.

Definition redis_up : Redis := mkRedis None None 1000 ∅.
Definition redis_down : Redis :=
  mkRedis (Some ConnectionError) (Some ConnectionError) 1000 ∅.
Definition redis_read_only : Redis := mkRedis None (Some ConnectionError) 1000 ∅.

Definition world_up : World := mkWorld redis_up [].
Definition world_down : World := mkWorld redis_down [].
Definition world_read_only : World := mkWorld redis_read_only [].

(* ===================================================================== *)
(** * Part II: properties *)
(* ===================================================================== *)

(** ** Stepping through the monads *)

Lemma bind_Ok_inv {A B} (m : result A) (f : A -> result B) b :
  m ≫= f = Ok b -> exists a, m = Ok a /\ f a = Ok b.
Proof. destruct m as [a|e]; simpl; [eauto | discriminate]. Qed.

Lemma M_bind_Ok_inv {S A B} (m : M S A) (f : A -> M S B) s s' b :
  (m ≫= f) s = (s', Ok b) ->
  exists s1 a, m s = (s1, Ok a) /\ f a s1 = (s', Ok b).
Proof.
  unfold mbind, M_bind. destruct (m s) as [s1 [a|e]]; [eauto | discriminate].
Qed.

Lemma M_bind_Ok {S A B} (m : M S A) (f : A -> M S B) s s1 a :
  m s = (s1, Ok a) -> (m ≫= f) s = f a s1.
Proof. unfold mbind, M_bind. intros ->. reflexivity. Qed.

Lemma M_bind_Raise {S A B} (m : M S A) (f : A -> M S B) s s1 e :
  m s = (s1, Raise e) -> (m ≫= f) s = (s1, Raise e).
Proof. unfold mbind, M_bind. intros ->. reflexivity. Qed.

Lemma lift_Ok_inv {S A} (r : result A) (s s' : S) a :
  lift r s = (s', Ok a) -> s' = s /\ r = Ok a.
Proof. unfold lift. intros [= -> ->]. auto. Qed.

Lemma raising_Ok_inv e u : raising e = Ok u -> e = None.
Proof. destruct e; [discriminate | reflexivity]. Qed.

(** ** Rounding *)

Lemma pow10_pos k : 0 <= k -> 0 < 10 ^ k.
Proof. intros. apply Z.pow_pos_nonneg; lia. Qed.

Lemma div_eq a b q r : 0 <= r < b -> a = b * q + r -> a / b = q.
Proof.
  intros Hr Ha. symmetry.
  apply (Z.div_unique a b q r); [left; exact Hr | exact Ha].
Qed.

(** floor(c/p + 1/2) is the quotient, plus one when the remainder is at
    least half of [p]. *)
Lemma half_up_div c p :
  0 <= c -> 0 < p ->
  (2 * c + p) / (2 * p) = if p <=? 2 * (c mod p) then c / p + 1 else c / p.
Proof.
  intros Hc Hp.
  pose proof (Z.div_mod c p ltac:(lia)) as Hdm.
  pose proof (Z.mod_pos_bound c p Hp) as Hr.
  destruct (p <=? 2 * (c mod p)) eqn:E.
  - apply Z.leb_le in E. apply (div_eq _ _ _ (2 * (c mod p) - p)); nia.
  - apply Z.leb_gt in E. apply (div_eq _ _ _ (2 * (c mod p) + p)); nia.
Qed.

(** The coefficient [quantize] computes is the specification's rounding of
    the magnitude. *)
Lemma coeff_half_up_spec d :
  coeff_at_cents rescale_half_up d = spec_half_up_cents (Decimal_magnitude d).
Proof.
  unfold coeff_at_cents, spec_half_up_cents, Decimal_magnitude, rescale_half_up.
  set (c := Z.of_N (dcoeff d)). assert (0 <= c) as Hc by (subst c; lia).
  destruct (0 <=? dexp d) eqn:He.
  - apply Z.leb_le in He.
    destruct (- 2 - dexp d <=? 0) eqn:Hk; [|apply Z.leb_gt in Hk; lia].
    replace (- (- 2 - dexp d)) with (dexp d + 2) by lia.
    rewrite Z.pow_add_r by lia.
    unfold Qfloor, Qplus, Qmult, inject_Z; simpl Qnum; simpl Qden.
    change (10 ^ 2) with 100. change (Z.pos (1 * 1 * 2)) with 2.
    change (Z.pos (1 * 1)) with 1.
    symmetry; apply (div_eq _ _ _ 1); lia.
  - apply Z.leb_gt in He.
    set (p := 10 ^ (- dexp d)).
    assert (0 < p) as Hp by (apply pow10_pos; lia).
    unfold Qfloor, Qplus, Qmult; simpl Qnum; simpl Qden.
    rewrite !Pos2Z.inj_mul, Z2Pos.id by lia.
    destruct (- 2 - dexp d <=? 0) eqn:Hk.
    + apply Z.leb_le in Hk.
      assert (dexp d = -1 \/ dexp d = -2) as [E|E] by lia;
        subst p; rewrite E; simpl.
      * symmetry; apply (div_eq _ _ _ 10); lia.
      * symmetry; apply (div_eq _ _ _ 100); lia.
    + apply Z.leb_gt in Hk.
      set (k := - 2 - dexp d) in *.
      assert (p = 10 ^ k * 100) as Ep.
      { subst p. replace (- dexp d) with (k + 2) by lia.
        rewrite Z.pow_add_r by lia. reflexivity. }
      assert (0 < 10 ^ k) as Hpk by (apply pow10_pos; lia).
      rewrite <- half_up_div by lia.
      rewrite Ep.
      replace (c * 100 * 2 + 1 * (10 ^ k * 100 * 1))
        with ((2 * c + 10 ^ k) * 100) by lia.
      replace (10 ^ k * 100 * 1 * 2) with ((2 * 10 ^ k) * 100) by lia.
      symmetry; apply Z.div_mul_cancel_r; lia.
Qed.

Lemma coeff_half_up_nonneg d : 0 <= coeff_at_cents rescale_half_up d.
Proof.
  unfold coeff_at_cents, rescale_half_up.
  set (c := Z.of_N (dcoeff d)). assert (0 <= c) as Hc by (subst c; lia).
  destruct (- 2 - dexp d <=? 0) eqn:Hk.
  - apply Z.leb_le in Hk. pose proof (pow10_pos (- (- 2 - dexp d)) ltac:(lia)). nia.
  - apply Z.leb_gt in Hk. pose proof (pow10_pos (- 2 - dexp d) ltac:(lia)) as Hp.
    pose proof (Z.div_pos c _ Hc Hp).
    destruct (_ <=? _); lia.
Qed.

Lemma mod_100_mod_10 n : (n mod 100) mod 10 = n mod 10.
Proof.
  pose proof (Z.div_mod n 100 ltac:(lia)).
  pose proof (Z.mod_pos_bound (n mod 100) 10 ltac:(lia)).
  pose proof (Z.div_mod (n mod 100) 10 ltac:(lia)).
  pose proof (Z.div_mod n 10 ltac:(lia)).
  pose proof (Z.mod_pos_bound n 10 ltac:(lia)).
  pose proof (Z.mod_pos_bound n 100 ltac:(lia)).
  lia.
Qed.

(** A decimal already at two places is printed digit for digit. *)
Lemma format_decimal_cents negative n :
  0 <= n ->
  _format_decimal (Finite (mkFinite negative (Z.to_N n) (- 2)))
  = cents_text negative n.
Proof.
  intros Hn. unfold _format_decimal, cents_text, coeff_at_cents, two_digits.
  cbn [dsign dcoeff dexp]. rewrite Z2N.id by lia.
  change (- 2 - - 2 <=? 0) with true. cbv iota.
  change (10 ^ (- (- 2 - - 2))) with 1. rewrite Z.mul_1_r.
  rewrite mod_100_mod_10. reflexivity.
Qed.

Lemma round_revenue_Ok raw d :
  decimal_or_zero raw = Finite d ->
  let n := spec_half_up_cents (Decimal_magnitude d) in
  n < 10 ^ context_prec ->
  round_revenue raw = Ok (Finite (mkFinite (dsign d) (Z.to_N n) (- 2))).
Proof.
  intros Hd n Hn. unfold round_revenue, quantize_cents_half_up.
  rewrite Hd, coeff_half_up_spec. fold n.
  destruct (n <? 10 ^ context_prec) eqn:E; [reflexivity|].
  apply Z.ltb_ge in E. lia.
Qed.

Lemma round_revenue_Raise raw d :
  decimal_or_zero raw = Finite d ->
  10 ^ context_prec <= spec_half_up_cents (Decimal_magnitude d) ->
  round_revenue raw = Raise InvalidOperation.
Proof.
  intros Hd Hn. unfold round_revenue, quantize_cents_half_up.
  rewrite Hd, coeff_half_up_spec.
  destruct (_ <? _) eqn:E; [|reflexivity].
  apply Z.ltb_lt in E. lia.
Qed.

(** Whenever the rounding of a finite sum returns, it returns the
    specification's cents. *)
Lemma round_revenue_Ok_inv raw d rounded :
  decimal_or_zero raw = Finite d ->
  round_revenue raw = Ok rounded ->
  let n := spec_half_up_cents (Decimal_magnitude d) in
  n < 10 ^ context_prec
  /\ rounded = Finite (mkFinite (dsign d) (Z.to_N n) (- 2))
  /\ _format_decimal rounded = cents_text (dsign d) n.
Proof.
  intros Hd H n.
  assert (n < 10 ^ context_prec) as Hn.
  { destruct (Z.lt_ge_cases n (10 ^ context_prec)) as [|Hge]; [assumption|].
    rewrite (round_revenue_Raise raw d Hd Hge) in H. discriminate. }
  rewrite (round_revenue_Ok raw d Hd Hn) in H. injection H as <-.
  repeat split; [assumption|].
  apply format_decimal_cents. subst n. rewrite <- coeff_half_up_spec.
  apply coeff_half_up_nonneg.
Qed.

(** The sum that reaches [quantize] is never a finite zero other than
    [Decimal("0")], and is NaN or an infinity only when the store's is. *)
Lemma decimal_or_zero_special raw :
  (decimal_or_zero raw = NaN <-> raw = Some NaN)
  /\ (forall negative,
        decimal_or_zero raw = Infinity negative <-> raw = Some (Infinity negative)).
Proof.
  unfold decimal_or_zero, Decimal_zero.
  destruct raw as [[f|neg|]|]; simpl.
  - destruct (negb _); repeat split; intros; discriminate.
  - repeat split; intros; congruence.
  - repeat split; intros; congruence.
  - repeat split; intros; discriminate.
Qed.

(** ** The body of [calculate_monthly_revenue] *)

(** What a normal return of the body went through. *)
Lemma monthly_body_Ok_inv env property_id tenant_id p0 p s :
  monthly_body env property_id tenant_id p0 = (p, Ok s) ->
  exists property_tz local_tz month year start_utc end_utc rounded,
    resolve_timezone env property_id tenant_id = Ok (property_tz, local_tz)
    /\ resolve_period env local_tz property_id tenant_id p0 = (p, Ok tt)
    /\ p = mkPeriod (Some month) (Some year)
    /\ month_bounds local_tz year month = Ok (start_utc, end_utc)
    /\ round_revenue
         (sql_monthly_revenue (db_pool env) property_id tenant_id
            start_utc end_utc ≫= total_revenue) = Ok rounded
    /\ s = dict [("property_id", PStr property_id);
                 ("tenant_id", PStr tenant_id);
                 ("total", PStr (_format_decimal rounded));
                 ("currency", PStr "USD");
                 ("count", PInt (Z.of_nat (length
                    (filter (fun r => in_window property_id tenant_id
                                        start_utc end_utc r)
                            (reservations (db_pool env))))));
                 ("month", PInt month);
                 ("year", PInt year);
                 ("timezone", PStr property_tz)].
Proof.
  unfold monthly_body. intros H.
  do 4 (apply M_bind_Ok_inv in H as (? & ? & H1 & H);
        apply lift_Ok_inv in H1 as [-> _]).
  apply M_bind_Ok_inv in H as (? & [property_tz local_tz] & Htz & H);
    apply lift_Ok_inv in Htz as [-> Htz].
  apply M_bind_Ok_inv in H as (p1 & [] & Hper & H).
  apply M_bind_Ok_inv in H as (? & p2 & Hget & H).
  unfold get_state in Hget. injection Hget as <- <-.
  apply M_bind_Ok_inv in H as (? & month & Hm & H);
    apply lift_Ok_inv in Hm as [-> Hm].
  apply M_bind_Ok_inv in H as (? & year & Hy & H);
    apply lift_Ok_inv in Hy as [-> Hy].
  apply M_bind_Ok_inv in H as (? & [start_utc end_utc] & Hb & H);
    apply lift_Ok_inv in Hb as [-> Hb].
  apply M_bind_Ok_inv in H as (? & ? & H1 & H);
    apply lift_Ok_inv in H1 as [-> _].
  apply M_bind_Ok_inv in H as (? & rounded & Hr & H);
    apply lift_Ok_inv in Hr as [-> Hr].
  apply M_bind_Ok_inv in H as (? & ? & H1 & H);
    apply lift_Ok_inv in H1 as [-> _].
  injection H as <- <-.
  destruct p1 as [[m|] [y|]]; simpl in Hm, Hy; try discriminate.
  injection Hm as ->. injection Hy as ->.
  exists property_tz, local_tz, month, year, start_utc, end_utc, rounded.
  repeat split; auto.
Qed.

(** With the store out of reach the body raises before it touches its
    locals. *)
Lemma store_unavailable_monthly env property_id tenant_id p0 :
  store_unavailable (db_pool env) ->
  exists e, monthly_body env property_id tenant_id p0 = (p0, Raise e).
Proof.
  unfold store_unavailable, monthly_body, mbind, M_bind, lift, raising.
  intros H.
  destruct (import_error (db_pool env)) as [e|]; [eauto|].
  destruct (initialize_error (db_pool env)) as [e|]; [eauto|].
  destruct (session_factory (db_pool env)); [|eauto].
  destruct (get_session_error (db_pool env)) as [e|]; [eauto|].
  exfalso. destruct H as [H|[H|[H|H]]]; congruence.
Qed.

Lemma store_unavailable_total env property_id tenant_id :
  store_unavailable (db_pool env) ->
  exists e, total_body env property_id tenant_id = Raise e.
Proof.
  unfold store_unavailable, total_body, with_session, mbind, result_bind, raising.
  intros H.
  destruct (import_error (db_pool env)) as [e|]; [eauto|].
  destruct (initialize_error (db_pool env)) as [e|]; [eauto|].
  destruct (session_factory (db_pool env)); [|eauto].
  destruct (get_session_error (db_pool env)) as [e|]; [eauto|].
  exfalso. destruct H as [H|[H|[H|H]]]; congruence.
Qed.

(** ** The fallback table *)

(** Every entry served has a text under "total" and a non-negative
    integer under "count". *)
Lemma mock_property_data_shape property_id :
  exists total count,
    mock_property_data property_id
      = dict [("total", PStr total); ("count", PInt count)]
    /\ 0 <= count.
Proof.
  unfold mock_property_data.
  destruct (decide (property_id = "prop-001")) as [->|?];
    [exists "1000.00", 3; split; [reflexivity | lia]|].
  destruct (decide (property_id = "prop-002")) as [->|?];
    [exists "4975.50", 4; split; [reflexivity | lia]|].
  destruct (decide (property_id = "prop-003")) as [->|?];
    [exists "6100.50", 2; split; [reflexivity | lia]|].
  destruct (decide (property_id = "prop-004")) as [->|?];
    [exists "1776.50", 4; split; [reflexivity | lia]|].
  destruct (decide (property_id = "prop-005")) as [->|?];
    [exists "3256.00", 3; split; [reflexivity | lia]|].
  exists "0.00", 0. split; [|lia].
  unfold mock_data. simpl list_to_map.
  rewrite !lookup_insert_ne, !lookup_empty by congruence. reflexivity.
Qed.

(** The two literals of the table are the same table. *)
Lemma mock_data_total_eq : mock_data_total = mock_data.
Proof. reflexivity. Qed.

Lemma monthly_handler_eq property_id tenant_id p :
  exists total count,
    mock_property_data property_id
      = dict [("total", PStr total); ("count", PInt count)]
    /\ 0 <= count
    /\ monthly_handler property_id tenant_id p
       = Ok (dict [("property_id", PStr property_id);
                   ("tenant_id", PStr tenant_id);
                   ("total", PStr total);
                   ("currency", PStr "USD");
                   ("count", PInt count);
                   ("month", opt_int (p_month p));
                   ("year", opt_int (p_year p));
                   ("timezone", PStr "UTC")]).
Proof.
  destruct (mock_property_data_shape property_id) as (total & count & E & Hc).
  exists total, count. repeat split; try assumption.
  unfold monthly_handler. fold (mock_property_data property_id).
  rewrite E. reflexivity.
Qed.

Lemma total_handler_eq property_id tenant_id :
  exists total count,
    mock_property_data property_id
      = dict [("total", PStr total); ("count", PInt count)]
    /\ 0 <= count
    /\ total_handler property_id tenant_id
       = Ok (dict [("property_id", PStr property_id);
                   ("tenant_id", PStr tenant_id);
                   ("total", PStr total);
                   ("currency", PStr "USD");
                   ("count", PInt count)]).
Proof.
  destruct (mock_property_data_shape property_id) as (total & count & E & Hc).
  exists total, count. repeat split; try assumption.
  unfold total_handler. rewrite mock_data_total_eq.
  fold (mock_property_data property_id). rewrite E. reflexivity.
Qed.

(** ** The aggregation entry points *)

(** The aggregator returns, whatever its body did. *)
Lemma calculate_monthly_revenue_total env property_id tenant_id month year :
  exists s, calculate_monthly_revenue env property_id tenant_id month year = Ok s.
Proof.
  unfold calculate_monthly_revenue.
  destruct (monthly_body env property_id tenant_id (mkPeriod month year))
    as [p [s|e]]; simpl; [eauto|].
  destruct (monthly_handler_eq property_id tenant_id p) as (t & c & _ & _ & ->).
  eauto.
Qed.

(** C1. [calculate_monthly_revenue] never raises: whatever the pool, the
    sessions, the statements, the zone database and the clock do, and
    whatever month and year it is given, it returns a summary, and that
    summary has a total and a non-negative count. When the body of its
    [try] raises, the summary is the handler's. *)
Theorem calculate_monthly_revenue_never_raises
    (env : Env) (property_id tenant_id : string) (month year : option Z) :
  exists s,
    calculate_monthly_revenue env property_id tenant_id month year = Ok s
    /\ well_formed s
    /\ forall p e,
         monthly_body env property_id tenant_id (mkPeriod month year)
           = (p, Raise e) ->
         monthly_handler property_id tenant_id p = Ok s.
Proof.
  unfold calculate_monthly_revenue.
  destruct (monthly_body env property_id tenant_id (mkPeriod month year))
    as [p [s|e]] eqn:Hbody; simpl.
  - exists s. split; [reflexivity|]. split; [|discriminate].
    apply monthly_body_Ok_inv in Hbody
      as (tzname & tz & m & y & s0 & e0 & rounded & _ & _ & _ & _ & _ & ->).
    split; eexists; [reflexivity|]. split; [reflexivity | lia].
  - destruct (monthly_handler_eq property_id tenant_id p)
      as (total & count & _ & Hc & E).
    rewrite E. eexists. split; [reflexivity|]. split.
    + split; eexists; [reflexivity|]. split; [reflexivity | assumption].
    + intros p' e' [= <- <-]. exact E.
Qed.

(** The summary returned when the body raised. *)
Lemma monthly_fallback env property_id tenant_id month year p e :
  monthly_body env property_id tenant_id (mkPeriod month year) = (p, Raise e) ->
  exists total count,
    mock_property_data property_id !! "total" = Some (PStr total)
    /\ mock_property_data property_id !! "count" = Some (PInt count)
    /\ calculate_monthly_revenue env property_id tenant_id month year
       = Ok (dict [("property_id", PStr property_id);
                   ("tenant_id", PStr tenant_id);
                   ("total", PStr total);
                   ("currency", PStr "USD");
                   ("count", PInt count);
                   ("month", opt_int (p_month p));
                   ("year", opt_int (p_year p));
                   ("timezone", PStr "UTC")]).
Proof.
  intros Hbody. unfold calculate_monthly_revenue. rewrite Hbody. simpl.
  destruct (monthly_handler_eq property_id tenant_id p)
    as (total & count & Hentry & _ & ->).
  exists total, count. rewrite Hentry. repeat split; reflexivity.
Qed.

(** C7. When the body of [calculate_monthly_revenue] raises (as it does
    when the store is unavailable) the summary returned takes its total and
    count from the table [mock_data] at the property, "0.00" and 0 for a
    property that is not in the table, and has timezone "UTC" and currency
    "USD"; for "prop-002" the total is "4975.50" and the count 4. With the
    store unavailable the month and year are the ones supplied, so none
    when none was supplied. *)
Theorem fallback_summary_from_table
    (env : Env) (property_id tenant_id : string) (month year : option Z) :
  (store_unavailable (db_pool env)
   \/ exists p e,
        monthly_body env property_id tenant_id (mkPeriod month year)
          = (p, Raise e)) ->
  exists s,
    calculate_monthly_revenue env property_id tenant_id month year = Ok s
    /\ s !! "total" = mock_property_data property_id !! "total"
    /\ s !! "count" = mock_property_data property_id !! "count"
    /\ (mock_data !! property_id = None ->
        s !! "total" = Some (PStr "0.00") /\ s !! "count" = Some (PInt 0))
    /\ s !! "timezone" = Some (PStr "UTC")
    /\ s !! "currency" = Some (PStr "USD")
    /\ (property_id = "prop-002" ->
        s !! "total" = Some (PStr "4975.50") /\ s !! "count" = Some (PInt 4))
    /\ (store_unavailable (db_pool env) ->
        s !! "month" = Some (opt_int month) /\ s !! "year" = Some (opt_int year)).
Proof.
  intros H.
  assert (exists p e,
            monthly_body env property_id tenant_id (mkPeriod month year)
              = (p, Raise e)
            /\ (store_unavailable (db_pool env) -> p = mkPeriod month year))
    as (p & e & Hbody & Hp).
  { destruct H as [H|(p & e & H)].
    - destruct (store_unavailable_monthly env property_id tenant_id
                  (mkPeriod month year) H) as (e & He).
      exists (mkPeriod month year), e. split; [assumption | reflexivity].
    - exists p, e. split; [assumption|]. intros Hdown.
      destruct (store_unavailable_monthly env property_id tenant_id
                  (mkPeriod month year) Hdown) as (e' & He').
      congruence. }
  destruct (monthly_fallback _ _ _ _ _ _ _ Hbody) as (total & count & Ht & Hc & ->).
  eexists. split; [reflexivity|].
  rewrite Ht, Hc.
  split; [reflexivity|]. split; [reflexivity|]. split.
  { intros Hnone. unfold mock_property_data in Ht, Hc.
    rewrite Hnone in Ht, Hc.
    change (Some (PStr "0.00") = Some (PStr total)) in Ht.
    change (Some (PInt 0) = Some (PInt count)) in Hc.
    injection Ht as <-. injection Hc as <-. split; reflexivity. }
  split; [reflexivity|]. split; [reflexivity|]. split.
  { intros ->.
    change (Some (PStr "4975.50") = Some (PStr total)) in Ht.
    change (Some (PInt 4) = Some (PInt count)) in Hc.
    injection Ht as <-. injection Hc as <-. split; reflexivity. }
  intros Hdown. rewrite (Hp Hdown). split; reflexivity.
Qed.

(** The summary of the store being down, for the property "prop-002" and no
    month or year. *)
Lemma fallback_summary_from_table_witness :
  exists s,
    calculate_monthly_revenue env_down "prop-002" "tenant-a" None None = Ok s
    /\ s !! "total" = Some (PStr "4975.50")
    /\ s !! "count" = Some (PInt 4)
    /\ s !! "currency" = Some (PStr "USD")
    /\ s !! "timezone" = Some (PStr "UTC")
    /\ s !! "month" = Some PNone /\ s !! "year" = Some PNone.
Proof.
  assert (store_unavailable (db_pool env_down)) as Hdown
    by (right; left; discriminate).
  destruct (fallback_summary_from_table env_down "prop-002" "tenant-a"
              None None (or_introl Hdown))
    as (s & Hs & _ & _ & _ & Htz & Hcur & H2 & Hmy).
  destruct (H2 eq_refl) as [Ht Hc]. destruct (Hmy Hdown) as [Hm Hy].
  exists s. repeat split; assumption.
Defined.

(** What a normal return of the body of [calculate_total_revenue] is. *)
Lemma total_body_Ok_inv env property_id tenant_id s :
  total_body env property_id tenant_id = Ok s ->
  exists total count,
    s = dict [("property_id", PStr property_id);
              ("tenant_id", PStr tenant_id);
              ("total", PStr total);
              ("currency", PStr "USD");
              ("count", PInt count)].
Proof.
  unfold total_body, with_session, mbind, result_bind, raising.
  destruct (import_error (db_pool env)); [discriminate|].
  destruct (initialize_error (db_pool env)); [discriminate|].
  destruct (session_factory (db_pool env)); [|discriminate].
  destruct (get_session_error (db_pool env)); [discriminate|].
  destruct (total_query_error (db_pool env)); [discriminate|].
  destruct (sql_total_revenue (db_pool env) property_id tenant_id) as [row|].
  - destruct (round_revenue (total_revenue row)) as [rounded|]; [|discriminate].
    destruct (session_exit_error (db_pool env)); [discriminate|].
    intros [= <-]. eauto.
  - destruct (session_exit_error (db_pool env)); [discriminate|].
    intros [= <-]. eauto.
Qed.

(** C9. [calculate_total_revenue] always returns a summary, and that
    summary has no "month" and no "year" key. Its handler reads a table
    equal to the one of [calculate_monthly_revenue]: when the store is
    unavailable the two entry points return the same total and the same
    count for every property, the ones of the table. *)
Theorem total_revenue_same_fallback
    (env : Env) (property_id tenant_id : string) (month year : option Z) :
  exists s_total,
    calculate_total_revenue env property_id tenant_id = Ok s_total
    /\ s_total !! "month" = None
    /\ s_total !! "year" = None
    /\ mock_data_total = mock_data
    /\ (store_unavailable (db_pool env) ->
        exists s_month,
          calculate_monthly_revenue env property_id tenant_id month year
            = Ok s_month
          /\ s_total !! "total" = s_month !! "total"
          /\ s_total !! "count" = s_month !! "count"
          /\ s_total !! "total" = mock_property_data property_id !! "total"
          /\ s_total !! "count" = mock_property_data property_id !! "count").
Proof.
  unfold calculate_total_revenue.
  destruct (total_handler_eq property_id tenant_id)
    as (total & count & Hentry & _ & Hhandler).
  destruct (total_body env property_id tenant_id) as [s|e] eqn:Hbody; simpl.
  - exists s. split; [reflexivity|].
    destruct (total_body_Ok_inv _ _ _ _ Hbody) as (t & c & ->).
    split; [reflexivity|]. split; [reflexivity|].
    split; [apply mock_data_total_eq|].
    intros Hdown.
    destruct (store_unavailable_total env property_id tenant_id Hdown)
      as (e & He).
    congruence.
  - rewrite Hhandler. eexists. split; [reflexivity|].
    split; [reflexivity|]. split; [reflexivity|].
    split; [apply mock_data_total_eq|].
    intros Hdown.
    destruct (store_unavailable_monthly env property_id tenant_id
                (mkPeriod month year) Hdown) as (e' & Hbody').
    destruct (monthly_fallback _ _ _ _ _ _ _ Hbody')
      as (total' & count' & Ht & Hc & ->).
    eexists. split; [reflexivity|].
    rewrite Ht, Hc. rewrite Hentry in Ht, Hc.
    change (Some (PStr total) = Some (PStr total')) in Ht.
    change (Some (PInt count) = Some (PInt count')) in Hc.
    injection Ht as <-. injection Hc as <-.
    repeat split; reflexivity.
Qed.

(** ** Calendar, zones and the month window *)

Lemma month_cases m : 1 <= m <= 12 ->
  m = 1 \/ m = 2 \/ m = 3 \/ m = 4 \/ m = 5 \/ m = 6 \/ m = 7 \/ m = 8 \/ m = 9 \/ m = 10 \/ m = 11 \/ m = 12.
Proof. lia. Qed.

Lemma days_before_month_bounds y m :
  1 <= m <= 12 -> 0 <= _days_before_month y m <= 335.
Proof.
  intros Hm. unfold _days_before_month.
  pose proof (month_cases m Hm) as Hcase; destruct_or! Hcase; subst m;
    destruct (_is_leap y); split; apply Z.leb_le; reflexivity.
Qed.

Lemma days_in_month_pos y m : 1 <= m <= 12 -> 1 <= _days_in_month y m.
Proof.
  intros Hm. unfold _days_in_month.
  pose proof (month_cases m Hm) as Hcase; destruct_or! Hcase; subst m;
    destruct (_is_leap y); apply Z.leb_le; reflexivity.
Qed.

Lemma datetime_ymd_first y m :
  1 <= y <= 9999 -> 1 <= m <= 12 -> datetime_ymd y m 1 = Ok (midnight y m 1).
Proof.
  intros Hy Hm. unfold datetime_ymd, MINYEAR, MAXYEAR.
  pose proof (days_in_month_pos y m Hm).
  repeat match goal with
  | |- context [?a <=? ?b] => destruct (Z.leb_spec a b); try lia
  end. reflexivity.
Qed.

Lemma midnight_first_bounds y m :
  2 <= y <= 9999 -> 1 <= m <= 12 -> (y = 9999 -> m = 1) ->
  DAY <= midnight y m 1 /\ midnight y m 1 + DAY <= MAXWALL.
Proof.
  intros Hy Hm Hlast. unfold midnight, _ymd2ord, MAXWALL.
  pose proof (days_before_month_bounds y m Hm) as Hb.
  assert (y = 9999 -> _days_before_month y m = 0) as H9.
  { intros E. rewrite (Hlast E). unfold _days_before_month. destruct (_is_leap y); reflexivity. }
  change (_ymd2ord MAXYEAR 12 31) with 3652059.
  unfold _days_before_year, DAY. 
  assert (y = 9999 \/ y <= 9998) as [E| Hle] by lia.
  - rewrite (H9 E). subst y. split; apply Z.leb_le; reflexivity.
  - Z.div_mod_to_equations. lia.
Qed.

Lemma in_calendar_Ok w : 0 <= w < MAXWALL -> in_calendar w = Ok w.
Proof.
  intros H. unfold in_calendar.
  destruct (Z.leb_spec 0 w); [|lia]. destruct (Z.ltb_spec w MAXWALL); [|lia].
  reflexivity.
Qed.

Lemma in_calendar_Ok_inv w u : in_calendar w = Ok u -> u = w /\ 0 <= w < MAXWALL.
Proof.
  unfold in_calendar.
  destruct (Z.leb_spec 0 w); destruct (Z.ltb_spec w MAXWALL); simpl;
    intros [= <-]. split; [reflexivity | lia].
Qed.

Lemma checked_offset_Ok off : - DAY < off < DAY -> checked_offset off = Ok off.
Proof.
  intros H. unfold checked_offset.
  destruct (Z.ltb_spec (- DAY) off); [|lia]. destruct (Z.ltb_spec off DAY); [|lia].
  reflexivity.
Qed.

Lemma checked_offset_Ok_inv off o : checked_offset off = Ok o -> o = off /\ - DAY < off < DAY.
Proof.
  unfold checked_offset.
  destruct (Z.ltb_spec (- DAY) off); destruct (Z.ltb_spec off DAY); simpl;
    intros [= <-]. split; [reflexivity | lia].
Qed.

(** Conversion to UTC subtracts the offset of the local reading. *)
Lemma astimezone_utc tz w :
  - DAY < utcoffset tz w < DAY -> 0 <= to_utc tz w < MAXWALL ->
  astimezone tz w timezone_utc = Ok (to_utc tz w).
Proof.
  intros Hoff Hcal. unfold astimezone, to_utc in *.
  rewrite (checked_offset_Ok _ Hoff). simpl.
  rewrite (in_calendar_Ok _ Hcal). simpl.
  rewrite Z.add_0_r. apply in_calendar_Ok. assumption.
Qed.

Lemma astimezone_utc_Ok_inv tz w u :
  astimezone tz w timezone_utc = Ok u -> u = to_utc tz w.
Proof.
  unfold astimezone, to_utc. intros H.
  apply bind_Ok_inv in H as (off & Hoff & H).
  apply checked_offset_Ok_inv in Hoff as [-> _].
  apply bind_Ok_inv in H as (utc & Hutc & H).
  apply in_calendar_Ok_inv in Hutc as [-> _].
  apply in_calendar_Ok_inv in H as [-> _]. simpl. lia.
Qed.

(** Conversion from UTC adds the offset in force at the instant. *)
Lemma astimezone_from_utc tz u :
  0 <= u < MAXWALL -> 0 <= to_local tz u < MAXWALL ->
  astimezone timezone_utc u tz = Ok (to_local tz u).
Proof.
  intros Hu Hl. unfold astimezone, to_local in *. simpl utcoffset.
  rewrite (checked_offset_Ok 0) by (unfold DAY; lia). simpl.
  rewrite Z.sub_0_r, (in_calendar_Ok _ Hu). simpl.
  apply in_calendar_Ok. assumption.
Qed.

Lemma month_bounds_Ok tz year month :
  1 <= month <= 12 -> 2 <= year <= 9998 ->
  (forall w, - DAY < utcoffset tz w < DAY) ->
  month_bounds tz year month
  = Ok (to_utc tz (midnight year month 1),
        to_utc tz (next_month_midnight year month)).
Proof.
  intros Hm Hy Hoff. unfold month_bounds, next_month_midnight.
  rewrite (datetime_ymd_first year month) by lia. simpl.
  destruct (midnight_first_bounds year month ltac:(lia) Hm ltac:(lia)) as [Hs1 Hs2].
  pose proof (Hoff (midnight year month 1)) as Ho1.
  destruct (Z.ltb_spec month 12); destruct (Z.eqb_spec month 12); try lia.
  - rewrite (datetime_ymd_first year (month + 1)) by lia. simpl.
    destruct (midnight_first_bounds year (month + 1) ltac:(lia) ltac:(lia) ltac:(lia)) as [He1 He2].
    pose proof (Hoff (midnight year (month + 1) 1)) as Ho2.
    rewrite !astimezone_utc by (unfold to_utc; lia). reflexivity.
  - rewrite (datetime_ymd_first (year + 1) 1) by lia. simpl.
    destruct (midnight_first_bounds (year + 1) 1 ltac:(lia) ltac:(lia) ltac:(lia)) as [He1 He2].
    pose proof (Hoff (midnight (year + 1) 1 1)) as Ho2.
    rewrite !astimezone_utc by (unfold to_utc; lia). reflexivity.
Qed.

Lemma datetime_ymd_Ok_inv y m d w :
  datetime_ymd y m d = Ok w -> w = midnight y m d /\ 1 <= m <= 12.
Proof.
  unfold datetime_ymd, midnight.
  destruct (_ && _) eqn:E; [|discriminate]. intros [= <-].
  split; [reflexivity|].
  repeat (apply andb_prop in E as [E ?]). lia.
Qed.

Lemma month_bounds_Ok_inv tz year month s e :
  month_bounds tz year month = Ok (s, e) ->
  s = to_utc tz (midnight year month 1)
  /\ e = to_utc tz (next_month_midnight year month).
Proof.
  unfold month_bounds, next_month_midnight. intros H.
  apply bind_Ok_inv in H as (sl & Hsl & H).
  apply datetime_ymd_Ok_inv in Hsl as [-> Hm].
  apply bind_Ok_inv in H as (el & Hel & H).
  apply bind_Ok_inv in H as (su & Hsu & H).
  apply bind_Ok_inv in H as (eu & Heu & H).
  injection H as <- <-.
  apply astimezone_utc_Ok_inv in Hsu as ->.
  apply astimezone_utc_Ok_inv in Heu as ->.
  split; [reflexivity|].
  destruct (Z.ltb_spec month 12); destruct (Z.eqb_spec month 12); try lia;
    apply datetime_ymd_Ok_inv in Hel as [-> _]; reflexivity.
Qed.

Lemma of_property_spec pid tid r :
  of_property pid tid r = true <-> res_property_id r = pid /\ res_tenant_id r = tid.
Proof.
  unfold of_property. rewrite andb_true_iff, !String.eqb_eq. reflexivity.
Qed.

Lemma in_window_spec pid tid s e r :
  in_window pid tid s e r = true
  <-> res_property_id r = pid /\ res_tenant_id r = tid
      /\ s <= res_check_in_date r < e.
Proof.
  unfold in_window. rewrite !andb_true_iff, of_property_spec, Z.leb_le, Z.ltb_lt.
  tauto.
Qed.

Lemma window_rows pool pid tid s e r :
  r ∈ filter (fun r => in_window pid tid s e r) (reservations pool)
  <-> r ∈ reservations pool
      /\ res_property_id r = pid /\ res_tenant_id r = tid
      /\ s <= res_check_in_date r < e.
Proof.
  rewrite list_elem_of_filter, Is_true_true, in_window_spec. tauto.
Qed.

Lemma sql_max_None l : sql_max l = None <-> l = [].
Proof.
  destruct l as [|x r]; simpl; [tauto|].
  destruct (sql_max r); split; discriminate.
Qed.

Lemma sql_max_Some l t :
  sql_max l = Some t <-> t ∈ l /\ forall x, x ∈ l -> x <= t.
Proof.
  revert t. induction l as [|a r IH]; intros t; simpl.
  - split; [discriminate|]. intros [H _]. inversion H.
  - destruct (sql_max r) as [m|] eqn:Em.
    + destruct (proj1 (IH m) eq_refl) as [Hin Hle].
      split.
      * intros [= <-]. split.
        -- destruct (Z.max_spec a m) as [[_ ->]|[_ ->]]; [right; assumption | left].
        -- intros x Hx. apply elem_of_cons in Hx as [->|Hx]; [lia|].
           specialize (Hle x Hx). lia.
      * intros [Ht Hmax]. f_equal.
        assert (a <= t) by (apply Hmax; left).
        assert (m <= t) by (apply Hmax; right; assumption).
        apply elem_of_cons in Ht as [->|Ht]; [lia|].
        specialize (Hle t Ht). lia.
    + apply sql_max_None in Em. subst r. split.
      * intros [= <-]. split; [left|]. intros x Hx.
        apply elem_of_cons in Hx as [->|Hx]; [lia | inversion Hx].
      * intros [Ht _]. apply elem_of_cons in Ht as [->|Ht]; [reflexivity | inversion Ht].
Qed.

(** The instants the MAX statement ranges over are the check-ins of the
    reservations of the property and tenant, and no others. *)
Lemma check_ins_spec pool property_id tenant_id x :
  x ∈ check_ins pool property_id tenant_id
  <-> exists r, r ∈ reservations pool
                /\ res_property_id r = property_id
                /\ res_tenant_id r = tenant_id
                /\ res_check_in_date r = x.
Proof.
  unfold check_ins. rewrite list_elem_of_fmap. split.
  - intros (r & -> & Hr). apply list_elem_of_filter in Hr as [Hp Hin].
    apply Is_true_true, of_property_spec in Hp as [Hp Ht]. eauto 6.
  - intros (r & Hin & Hp & Ht & <-). exists r. split; [reflexivity|].
    apply list_elem_of_filter. split; [|assumption].
    apply Is_true_true, of_property_spec. auto.
Qed.

Lemma check_ins_nil pool property_id tenant_id :
  (forall r, r ∈ reservations pool ->
             ~ (res_property_id r = property_id /\ res_tenant_id r = tenant_id)) ->
  check_ins pool property_id tenant_id = [].
Proof.
  intros Hnone.
  destruct (check_ins pool property_id tenant_id) as [|x l] eqn:E; [reflexivity|].
  assert (x ∈ check_ins pool property_id tenant_id) as Hx by (rewrite E; left).
  apply check_ins_spec in Hx as (r & Hin & Hp & Ht & _).
  destruct (Hnone r Hin). auto.
Qed.

(** The latest check-in of the property and tenant is what MAX returns. *)
Lemma sql_max_latest pool property_id tenant_id r :
  r ∈ reservations pool ->
  res_property_id r = property_id -> res_tenant_id r = tenant_id ->
  (forall r', r' ∈ reservations pool ->
              res_property_id r' = property_id -> res_tenant_id r' = tenant_id ->
              res_check_in_date r' <= res_check_in_date r) ->
  sql_max (check_ins pool property_id tenant_id) = Some (res_check_in_date r).
Proof.
  intros Hin Hp Ht Hmax. apply sql_max_Some. split.
  - apply check_ins_spec. eauto 6.
  - intros x Hx. apply check_ins_spec in Hx as (r' & Hin' & Hp' & Ht' & <-).
    auto.
Qed.

(** The branch of lines 77-89 when a check-in exists. *)
Lemma resolve_period_latest env tz pid tid p t :
  truthy_int (p_month p) && truthy_int (p_year p) = false ->
  latest_query_error (db_pool env) = None ->
  sql_max (check_ins (db_pool env) pid tid) = Some t ->
  0 <= t < MAXWALL -> 0 <= to_local tz t < MAXWALL ->
  resolve_period env tz pid tid p
  = (mkPeriod (Some (wall_month (to_local tz t))) (Some (wall_year (to_local tz t))),
     Ok tt).
Proof.
  intros Hp Hq Hmax Ht Hl.
  unfold resolve_period, mbind, M_bind, get_state, lift, put_state.
  replace (negb (truthy_int (p_month p)) || negb (truthy_int (p_year p))) with true
    by (destruct (truthy_int (p_month p)), (truthy_int (p_year p)); simpl in *; congruence).
  unfold _get_latest_check_in. rewrite Hq, Hmax. simpl.
  assert (astimezone
            match (if timestamps_naive (db_pool env) then None else Some timezone_utc) with
            | Some tz0 => tz0 | None => timezone_utc end t tz = Ok (to_local tz t)) as ->.
  { destruct (timestamps_naive (db_pool env)); apply astimezone_from_utc; assumption. }
  reflexivity.
Qed.

(** The branch of lines 77-89 when there is no check-in. *)
Lemma resolve_period_now env tz pid tid p :
  truthy_int (p_month p) && truthy_int (p_year p) = false ->
  latest_query_error (db_pool env) = None ->
  check_ins (db_pool env) pid tid = [] ->
  0 <= clock_utc env < MAXWALL -> 0 <= to_local tz (clock_utc env) < MAXWALL ->
  resolve_period env tz pid tid p
  = (mkPeriod (Some (or_int (p_month p) (wall_month (to_local tz (clock_utc env)))))
              (Some (or_int (p_year p) (wall_year (to_local tz (clock_utc env))))),
     Ok tt).
Proof.
  intros Hp Hq Hnone Ht Hl.
  unfold resolve_period, mbind, M_bind, get_state, lift, put_state.
  replace (negb (truthy_int (p_month p)) || negb (truthy_int (p_year p))) with true
    by (destruct (truthy_int (p_month p)), (truthy_int (p_year p)); simpl in *; congruence).
  unfold _get_latest_check_in. rewrite Hq, Hnone. simpl.
  rewrite (astimezone_from_utc tz _ Ht Hl). reflexivity.
Qed.

(** With both month and year given and non-zero, nothing is resolved. *)
Lemma resolve_period_given env tz pid tid p :
  truthy_int (p_month p) && truthy_int (p_year p) = true ->
  resolve_period env tz pid tid p = (p, Ok tt).
Proof.
  intros Hp. apply andb_prop in Hp as [Hm Hy].
  unfold resolve_period, mbind, M_bind, get_state.
  rewrite Hm, Hy. reflexivity.
Qed.

(** C3. For a month between 1 and 12 (and a year whose month bounds stay
    inside the calendar) the bounds of the query are, in UTC, local midnight
    on day 1 of the month and local midnight on day 1 of the month after,
    December rolling into January of the next year; the statement counts
    and sums exactly the reservations of the property and tenant whose
    check-in is at or after the first bound and strictly before the second;
    and a normal return of [calculate_monthly_revenue]'s body reports the
    number of those reservations for the zone it resolved. *)
Theorem month_window_half_open (tz : tzinfo) (year month : Z) :
  1 <= month <= 12 -> 2 <= year <= 9998 ->
  (forall w, - DAY < utcoffset tz w < DAY) ->
  let start_utc := to_utc tz (midnight year month 1) in
  let end_utc :=
    to_utc tz (if month =? 12 then midnight (year + 1) 1 1
               else midnight year (month + 1) 1) in
  month_bounds tz year month = Ok (start_utc, end_utc)
  /\ (forall pool property_id tenant_id r,
        r ∈ filter (fun r => in_window property_id tenant_id start_utc end_utc r)
                   (reservations pool)
        <-> r ∈ reservations pool
            /\ res_property_id r = property_id /\ res_tenant_id r = tenant_id
            /\ start_utc <= res_check_in_date r < end_utc)
  /\ (forall env property_id tenant_id p s,
        monthly_body env property_id tenant_id (mkPeriod (Some month) (Some year))
          = (p, Ok s) ->
        exists property_tz local_tz,
          resolve_timezone env property_id tenant_id = Ok (property_tz, local_tz)
          /\ s !! "month" = Some (PInt month)
          /\ s !! "year" = Some (PInt year)
          /\ s !! "count" = Some (PInt (Z.of_nat (length
               (filter (fun r => in_window property_id tenant_id
                                   (to_utc local_tz (midnight year month 1))
                                   (to_utc local_tz (next_month_midnight year month)) r)
                       (reservations (db_pool env))))))).
Proof.
  intros Hm Hy Hoff start_utc end_utc. split; [|split].
  - apply month_bounds_Ok; assumption.
  - intros. apply window_rows.
  - intros env property_id tenant_id p s Hbody.
    apply monthly_body_Ok_inv in Hbody
      as (property_tz & local_tz & m & y & s0 & e0 & rounded
          & Htz & Hper & Hp & Hb & _ & ->).
    rewrite resolve_period_given in Hper
      by (simpl; destruct (Z.eqb_spec month 0), (Z.eqb_spec year 0); simpl; lia).
    injection Hper as <-. injection Hp as <- <-.
    apply month_bounds_Ok_inv in Hb as [-> ->].
    exists property_tz, local_tz. repeat split; assumption || reflexivity.
Qed.

(** March 2024 in New York: the window opens at 05:00Z on March 1 and
    closes at 04:00Z on April 1, daylight saving having begun in between. *)
Lemma month_window_half_open_witness :
  month_bounds New_York_2024 2024 3
  = Ok (reading 2024 3 1 5, reading 2024 4 1 4).
Proof.
  assert (forall w, - DAY < utcoffset New_York_2024 w < DAY) as Hoff.
  { intros w. unfold New_York_2024, utcoffset.
    destruct (_ && _); split; apply Z.ltb_lt; reflexivity. }
  exact (proj1 (month_window_half_open New_York_2024 2024 3
                  ltac:(lia) ltac:(lia) Hoff)).
Defined.

(** C8. With neither month nor year given: when a reservation of the
    property and tenant has the latest check-in among the reservations of
    that property and tenant (whatever other properties and tenants hold),
    the period is the month and year of that instant read in the local
    zone; when the property and tenant have no reservation, it is the month
    and year of the current instant read in the local zone. A normal return
    of the body reports the period so resolved. *)
Theorem period_of_latest_or_now
    (env : Env) (tz : tzinfo) (property_id tenant_id : string) :
  latest_query_error (db_pool env) = None ->
  (forall r,
     r ∈ reservations (db_pool env) ->
     res_property_id r = property_id -> res_tenant_id r = tenant_id ->
     (forall r', r' ∈ reservations (db_pool env) ->
                 res_property_id r' = property_id ->
                 res_tenant_id r' = tenant_id ->
                 res_check_in_date r' <= res_check_in_date r) ->
     0 <= res_check_in_date r < MAXWALL ->
     0 <= to_local tz (res_check_in_date r) < MAXWALL ->
     _get_latest_check_in (db_pool env) property_id tenant_id
       = Ok (Some (driver_datetime (db_pool env) (res_check_in_date r)))
     /\ resolve_period env tz property_id tenant_id (mkPeriod None None)
        = (mkPeriod (Some (wall_month (to_local tz (res_check_in_date r))))
                    (Some (wall_year (to_local tz (res_check_in_date r)))),
           Ok tt))
  /\ ((forall r, r ∈ reservations (db_pool env) ->
                 ~ (res_property_id r = property_id
                    /\ res_tenant_id r = tenant_id)) ->
      0 <= clock_utc env < MAXWALL ->
      0 <= to_local tz (clock_utc env) < MAXWALL ->
      _get_latest_check_in (db_pool env) property_id tenant_id = Ok None
      /\ resolve_period env tz property_id tenant_id (mkPeriod None None)
         = (mkPeriod (Some (wall_month (to_local tz (clock_utc env))))
                     (Some (wall_year (to_local tz (clock_utc env)))), Ok tt))
  /\ (forall p s,
        monthly_body env property_id tenant_id (mkPeriod None None) = (p, Ok s) ->
        exists property_tz local_tz,
          resolve_timezone env property_id tenant_id = Ok (property_tz, local_tz)
          /\ resolve_period env local_tz property_id tenant_id (mkPeriod None None)
             = (p, Ok tt)
          /\ s !! "month" = Some (opt_int (p_month p))
          /\ s !! "year" = Some (opt_int (p_year p))).
Proof.
  intros Hq. split; [|split].
  - intros r Hin Hp Ht Hmax Hcal Hloc.
    pose proof (sql_max_latest _ _ _ _ Hin Hp Ht Hmax) as Hsql.
    split.
    + unfold _get_latest_check_in. rewrite Hq, Hsql. reflexivity.
    + apply resolve_period_latest; try assumption. reflexivity.
  - intros Hnone Ht Hl.
    pose proof (check_ins_nil _ _ _ Hnone) as Hnil.
    split.
    + unfold _get_latest_check_in. rewrite Hq, Hnil. reflexivity.
    + rewrite (resolve_period_now env tz property_id tenant_id (mkPeriod None None))
        by (assumption || reflexivity).
      reflexivity.
  - intros p s Hbody.
    apply monthly_body_Ok_inv in Hbody
      as (property_tz & local_tz & m & y & s0 & e0 & rounded
          & Htz & Hper & -> & _ & _ & ->).
    exists property_tz, local_tz. repeat split; assumption || reflexivity.
Qed.

(** C10. With exactly one of month and year given (and not zero) the
    period is resolved as when both are absent: a latest check-in replaces
    both by its local month and year, the given value being dropped; with no
    check-in the given value is kept and the other one is read off the
    current local instant. *)
Theorem period_when_one_is_given
    (env : Env) (tz : tzinfo) (property_id tenant_id : string)
    (month year : option Z) :
  (month = None /\ (exists y, year = Some y /\ y <> 0)
   \/ year = None /\ (exists m, month = Some m /\ m <> 0)) ->
  latest_query_error (db_pool env) = None ->
  (forall t,
     t ∈ check_ins (db_pool env) property_id tenant_id ->
     (forall x, x ∈ check_ins (db_pool env) property_id tenant_id -> x <= t) ->
     0 <= t < MAXWALL -> 0 <= to_local tz t < MAXWALL ->
     resolve_period env tz property_id tenant_id (mkPeriod month year)
     = (mkPeriod (Some (wall_month (to_local tz t)))
                 (Some (wall_year (to_local tz t))), Ok tt))
  /\ (check_ins (db_pool env) property_id tenant_id = [] ->
      0 <= clock_utc env < MAXWALL ->
      0 <= to_local tz (clock_utc env) < MAXWALL ->
      resolve_period env tz property_id tenant_id (mkPeriod month year)
      = (mkPeriod
           (Some (match month with
                  | Some m => m
                  | None => wall_month (to_local tz (clock_utc env))
                  end))
           (Some (match year with
                  | Some y => y
                  | None => wall_year (to_local tz (clock_utc env))
                  end)), Ok tt)).
Proof.
  intros Hone Hq.
  assert (truthy_int month && truthy_int year = false) as Hfalsy.
  { destruct Hone as [[-> _]|[-> _]]; [reflexivity|].
    destruct (truthy_int month); reflexivity. }
  split.
  - intros t Hin Hmax Ht Hl.
    apply resolve_period_latest; try assumption.
    apply sql_max_Some. split; assumption.
  - intros Hnone Ht Hl.
    rewrite (resolve_period_now env tz property_id tenant_id (mkPeriod month year))
      by assumption.
    destruct Hone as [[-> (y & -> & Hy)]|[-> (m & -> & Hm)]]; simpl;
      [destruct (Z.eqb_spec y 0) | destruct (Z.eqb_spec m 0)];
      congruence || reflexivity.
Qed.

Ltac in_calendar_by_computation :=
  split; [apply Z.leb_le | apply Z.ltb_lt]; vm_compute; reflexivity.

(** The latest check-in of "prop-ny" for "tenant-a" is at 04:00Z on April
    1, 2024, midnight of April 1 in New York, though another tenant of the
    property checks in in August and another property in September; without
    reservations the clock of 02:00Z on July 1 reads June 30 there. *)
Lemma period_of_latest_or_now_witness :
  resolve_period sample_env New_York_2024 "prop-ny" "tenant-a" (mkPeriod None None)
    = (mkPeriod (Some 4) (Some 2024), Ok tt)
  /\ resolve_period env_empty New_York_2024 "prop-ny" "tenant-a" (mkPeriod None None)
    = (mkPeriod (Some 6) (Some 2024), Ok tt).
Proof.
  split.
  - set (r := mkReservation "prop-ny" "tenant-a" (reading 2024 4 1 4)
                (mkNumeric 5000 2)).
    assert (r ∈ reservations (db_pool sample_env)) as Hin
      by (apply list_elem_of_In; vm_compute; tauto).
    assert (forall r', r' ∈ reservations (db_pool sample_env) ->
              res_property_id r' = "prop-ny" -> res_tenant_id r' = "tenant-a" ->
              res_check_in_date r' <= res_check_in_date r) as Hmax.
    { intros r' Hin' Hp' Ht'.
      destruct (proj1 (sql_max_Some
                  (check_ins (db_pool sample_env) "prop-ny" "tenant-a")
                  (reading 2024 4 1 4)) eq_refl) as [_ Hle].
      apply Hle, check_ins_spec. eauto 6. }
    exact (proj2 (proj1 (period_of_latest_or_now sample_env New_York_2024
                           "prop-ny" "tenant-a" eq_refl)
                    r Hin eq_refl eq_refl Hmax
                    ltac:(in_calendar_by_computation)
                    ltac:(in_calendar_by_computation))).
  - assert (forall r, r ∈ reservations (db_pool env_empty) ->
              ~ (res_property_id r = "prop-ny" /\ res_tenant_id r = "tenant-a"))
      as Hnone by (intros r Hr; inversion Hr).
    exact (proj2 (proj1 (proj2 (period_of_latest_or_now env_empty New_York_2024
                                  "prop-ny" "tenant-a" eq_refl))
                    Hnone
                    ltac:(in_calendar_by_computation)
                    ltac:(in_calendar_by_computation))).
Defined.

(** Only the year 2020 is given: the latest check-in overrides it, and
    without reservations it is kept next to the current local month. *)
Lemma period_when_one_is_given_witness :
  resolve_period sample_env New_York_2024 "prop-ny" "tenant-a"
      (mkPeriod None (Some 2020))
    = (mkPeriod (Some 4) (Some 2024), Ok tt)
  /\ resolve_period env_empty New_York_2024 "prop-ny" "tenant-a"
      (mkPeriod None (Some 2020))
    = (mkPeriod (Some 6) (Some 2020), Ok tt).
Proof.
  assert (@None Z = None /\ (exists y, Some 2020 = Some y /\ y <> 0)
          \/ Some 2020 = None /\ (exists m, @None Z = Some m /\ m <> 0)) as Hone.
  { left. split; [reflexivity|]. exists 2020. split; [reflexivity | lia]. }
  split.
  - destruct (proj1 (sql_max_Some
                (check_ins (db_pool sample_env) "prop-ny" "tenant-a")
                (reading 2024 4 1 4)) eq_refl) as [Hin Hmax].
    exact (proj1 (period_when_one_is_given sample_env New_York_2024
                    "prop-ny" "tenant-a" None (Some 2020) Hone eq_refl)
             (reading 2024 4 1 4) Hin Hmax
             ltac:(in_calendar_by_computation)
             ltac:(in_calendar_by_computation)).
  - exact (proj2 (period_when_one_is_given env_empty New_York_2024
                    "prop-ny" "tenant-a" None (Some 2020) Hone eq_refl)
             eq_refl
             ltac:(in_calendar_by_computation)
             ltac:(in_calendar_by_computation)).
Defined.

(** ** The total *)

(** When the rounding returns, the text of the total is [total_text] of
    the sum, and the sum is no infinity. *)
Lemma round_revenue_text raw rounded :
  round_revenue raw = Ok rounded ->
  _format_decimal rounded = total_text (decimal_or_zero raw)
  /\ (forall negative, decimal_or_zero raw <> Infinity negative)
  /\ (forall d, decimal_or_zero raw = Finite d ->
        spec_half_up_cents (Decimal_magnitude d) < 10 ^ context_prec).
Proof.
  intros H. destruct (decimal_or_zero raw) as [d|neg|] eqn:Hd.
  - destruct (round_revenue_Ok_inv raw d rounded Hd H) as (Hn & _ & Hf).
    split; [exact Hf|]. split; [discriminate|]. intros d' [= <-]. exact Hn.
  - unfold round_revenue in H. rewrite Hd in H. discriminate.
  - unfold round_revenue in H. rewrite Hd in H. injection H as <-.
    split; [reflexivity|]. split; discriminate.
Qed.

(** C4. The claim fails on the code at sums the store can return. In
    March 2024 the store holds one reservation of "prop-002" whose amount is
    NaN: the sum is NaN, [quantize] hands it back, the format prints its
    name, and the total returned is "NaN", with no fractional digits. With
    an amount of 10^26 instead, the rounded sum needs 29 digits, [quantize]
    raises, and with the database in working order the handler returns the
    mock table's total "4975.50" and count 4, where the rounded sum is
    "100000000000000000000000000.00" and the count 1. *)
Theorem total_at_nan_and_huge_sums :
  (sql_monthly_revenue (db_pool env_nan) "prop-002" "tenant-a"
      (reading 2024 3 1 0) (reading 2024 4 1 0) ≫= total_revenue = Some NaN
   /\ calculate_monthly_revenue env_nan "prop-002" "tenant-a" (Some 3) (Some 2024)
      = Ok (dict [("property_id", PStr "prop-002");
                  ("tenant_id", PStr "tenant-a");
                  ("total", PStr "NaN");
                  ("currency", PStr "USD");
                  ("count", PInt 1);
                  ("month", PInt 3);
                  ("year", PInt 2024);
                  ("timezone", PStr "UTC")]))
  /\ (sql_monthly_revenue (db_pool env_huge) "prop-002" "tenant-a"
        (reading 2024 3 1 0) (reading 2024 4 1 0)
      = Some (mkRevenueRow (Some (Finite (mkFinite false (10 ^ 26) 0))) 1)
     /\ round_revenue (Some (Finite (mkFinite false (10 ^ 26) 0)))
        = Raise InvalidOperation
     /\ ~ store_unavailable (db_pool env_huge)
     /\ calculate_monthly_revenue env_huge "prop-002" "tenant-a"
          (Some 3) (Some 2024)
        = Ok (dict [("property_id", PStr "prop-002");
                    ("tenant_id", PStr "tenant-a");
                    ("total", PStr "4975.50");
                    ("currency", PStr "USD");
                    ("count", PInt 4);
                    ("month", PInt 3);
                    ("year", PInt 2024);
                    ("timezone", PStr "UTC")])
     /\ total_text (Finite (mkFinite false (10 ^ 26) 0))
        = "100000000000000000000000000.00").
Proof.
  split; [split; vm_compute; reflexivity|].
  split; [vm_compute; reflexivity|]. split; [vm_compute; reflexivity|].
  split; [|split; vm_compute; reflexivity].
  intros [H|[H|[H|H]]]; simpl in H; congruence.
Qed.

(** ** The cache layer *)

Lemma occurs_app c a b : occurs c (a +:+ b) = occurs c a || occurs c b.
Proof.
  induction a as [|x a IH]; simpl; [reflexivity|].
  rewrite IH. apply orb_assoc.
Qed.

Lemma truthy_int_Some z : z <> 0 -> truthy_int (Some z) = true.
Proof. intros Hz. simpl. destruct (Z.eqb_spec z 0); [contradiction | reflexivity]. Qed.

Lemma cache_scope_spec month year :
  month <> Some 0 -> year <> Some 0 ->
  cache_scope month year = spec_scope month year.
Proof.
  intros Hm Hy. unfold cache_scope, spec_scope.
  destruct month as [m|], year as [y|]; try reflexivity.
  - rewrite !truthy_int_Some by congruence. reflexivity.
  - simpl. rewrite andb_false_r. reflexivity.
Qed.

(** C5. For a request whose month and year, when present, are not zero
    (as in every valid request: months run from 1, years from 2000), the
    cache key is "revenue:", the tenant, ":", the property, ":" and the
    scope, which is the year, "-" and the month when both are present and
    "latest" otherwise; and the key of a request without month and year
    differs from the key of any request that names a month and a year for
    the same property and tenant. *)
Theorem cache_key_format
    (property_id tenant_id : string) (month year : option Z) :
  month <> Some 0 -> year <> Some 0 ->
  cache_key property_id tenant_id month year
    = "revenue:" +:+ tenant_id +:+ ":" +:+ property_id +:+ ":"
      +:+ match month, year with
          | Some m, Some y => pretty y +:+ "-" +:+ pretty m
          | _, _ => "latest"
          end
  /\ (forall m y,
        month = Some m -> year = Some y ->
        cache_key property_id tenant_id None None
          <> cache_key property_id tenant_id month year).
Proof.
  intros Hm Hy. split.
  - unfold cache_key. rewrite cache_scope_spec by assumption. reflexivity.
  - intros m y -> ->. unfold cache_key.
    rewrite (cache_scope_spec (Some m) (Some y)) by assumption.
    change (cache_scope None None) with "latest". simpl spec_scope.
    intros H.
    do 5 apply (inj (String.app _)) in H.
    apply (f_equal (occurs "-")) in H.
    rewrite occurs_app in H. simpl in H. rewrite orb_true_r in H.
    discriminate.
Qed.

(** The key of March 2024 and the key of "latest". *)
Lemma cache_key_format_witness :
  cache_key "prop-ny" "tenant-a" (Some 3) (Some 2024)
    = "revenue:tenant-a:prop-ny:2024-3"
  /\ cache_key "prop-ny" "tenant-a" None None
     <> cache_key "prop-ny" "tenant-a" (Some 3) (Some 2024).
Proof.
  destruct (cache_key_format "prop-ny" "tenant-a" (Some 3) (Some 2024)
              ltac:(discriminate) ltac:(discriminate)) as [Hkey Hne].
  split; [exact Hkey | exact (Hne 3 2024 eq_refl eq_refl)].
Defined.

(** *** Runs of [get_revenue_summary] *)

Lemma get_revenue_summary_read_error json env property_id tenant_id month year w e :
  redis_get_error (redis_client w) = Some e ->
  get_revenue_summary json env property_id tenant_id month year w = (w, Raise e).
Proof.
  intros He.
  unfold get_revenue_summary, await_get, mbind, M_bind, get_state, lift, redis_get.
  rewrite He. reflexivity.
Qed.

Lemma get_revenue_summary_hit json env property_id tenant_id month year w cached :
  redis_get (redis_client w) (cache_key property_id tenant_id month year)
    = Ok cached ->
  truthy_bytes cached = true ->
  get_revenue_summary json env property_id tenant_id month year w
    = (w, json_loads json (default "" cached)).
Proof.
  intros Hget Hhit.
  unfold get_revenue_summary, await_get, mbind, M_bind, get_state, lift.
  rewrite Hget, Hhit. reflexivity.
Qed.

Lemma get_revenue_summary_miss json env property_id tenant_id month year w cached result :
  redis_get (redis_client w) (cache_key property_id tenant_id month year)
    = Ok cached ->
  truthy_bytes cached = false ->
  calculate_monthly_revenue env property_id tenant_id month year = Ok result ->
  get_revenue_summary json env property_id tenant_id month year w
    = let calls := (aggregator_calls w
                    ++ [mkCall property_id tenant_id month year])%list in
      match redis_setex (redis_client w)
              (cache_key property_id tenant_id month year) 300
              (json_dumps json result) with
      | Ok r => (mkWorld r calls, Ok result)
      | Raise e => (mkWorld (redis_client w) calls, Raise e)
      end.
Proof.
  intros Hget Hmiss Hcalc.
  unfold get_revenue_summary, await_get, await_calculate_monthly_revenue,
    await_setex, mbind, M_bind, get_state, put_state, lift.
  rewrite Hget, Hmiss, Hcalc. simpl.
  destruct (redis_setex _ _ _ _); reflexivity.
Qed.

(** One call of the cache layer calls the aggregator at most once. *)
Lemma get_revenue_summary_calls json env property_id tenant_id month year w w' r :
  get_revenue_summary json env property_id tenant_id month year w = (w', r) ->
  aggregator_calls w' = aggregator_calls w
  \/ aggregator_calls w'
     = (aggregator_calls w ++ [mkCall property_id tenant_id month year])%list.
Proof.
  intros H.
  destruct (redis_get (redis_client w)
              (cache_key property_id tenant_id month year)) as [cached|e] eqn:Hget.
  - destruct (truthy_bytes cached) eqn:Hhit.
    + rewrite (get_revenue_summary_hit _ _ _ _ _ _ _ _ Hget Hhit) in H.
      injection H as <- _. left. reflexivity.
    + destruct (calculate_monthly_revenue_total env property_id tenant_id
                  month year) as (result & Hcalc).
      rewrite (get_revenue_summary_miss _ _ _ _ _ _ _ _ _ Hget Hhit Hcalc) in H.
      destruct (redis_setex _ _ _ _); injection H as <- _; right; reflexivity.
  - unfold redis_get, raising in Hget.
    destruct (redis_get_error (redis_client w)) as [e'|] eqn:He; [|discriminate].
    rewrite (get_revenue_summary_read_error _ _ _ _ _ _ _ _ He) in H.
    injection H as <- _. left. reflexivity.
Qed.

Lemma redis_get_elapse w dt key :
  redis_get (redis_client (elapse dt w)) key
  = (raising (redis_get_error (redis_client w));;
     Ok (match redis_store (redis_client w) !! key with
         | Some e => if redis_time (redis_client w) + dt <? entry_expires_at e
                     then Some (entry_value e) else None
         | None => None
         end)).
Proof. reflexivity. Qed.

(** C2. With the cache answering: a hit (a non-empty cached text) is
    decoded and returned, the world and so the aggregator untouched; a miss
    calls [calculate_monthly_revenue] once, stores the encoded summary under
    the key to expire 300 seconds later, and returns the summary; and two
    calls with the same arguments less than 300 seconds apart call the
    aggregator at most once in all, the second not at all when the first
    was a miss. *)
Theorem cache_aside
    (json : Json) (env env' : Env) (property_id tenant_id : string)
    (month year : option Z) (w : World) (dt : Z) :
  redis_get_error (redis_client w) = None ->
  redis_setex_error (redis_client w) = None ->
  (forall d, json_dumps json d <> "") ->
  0 <= dt < 300 ->
  let key := cache_key property_id tenant_id month year in
  let call := mkCall property_id tenant_id month year in
  (forall cached,
     redis_get (redis_client w) key = Ok (Some cached) -> cached <> "" ->
     get_revenue_summary json env property_id tenant_id month year w
       = (w, json_loads json cached))
  /\ (forall cached,
        redis_get (redis_client w) key = Ok cached ->
        truthy_bytes cached = false ->
        exists result w',
          calculate_monthly_revenue env property_id tenant_id month year
            = Ok result
          /\ get_revenue_summary json env property_id tenant_id month year w
             = (w', Ok result)
          /\ aggregator_calls w' = (aggregator_calls w ++ [call])%list
          /\ redis_store (redis_client w') !! key
             = Some (mkRedisEntry (json_dumps json result)
                       (redis_time (redis_client w) + 300))
          /\ forall w2 r2,
               get_revenue_summary json env' property_id tenant_id month year
                 (elapse dt w') = (w2, r2) ->
               aggregator_calls w2 = aggregator_calls w'
               /\ r2 = json_loads json (json_dumps json result))
  /\ (forall w1 r1 w2 r2,
        get_revenue_summary json env property_id tenant_id month year w
          = (w1, r1) ->
        get_revenue_summary json env' property_id tenant_id month year
          (elapse dt w1) = (w2, r2) ->
        (length (aggregator_calls w2) <= length (aggregator_calls w) + 1)%nat).
Proof.
  intros Hget Hset Hdumps Hdt key call.
  assert (forall cached,
            redis_get (redis_client w) key = Ok cached ->
            truthy_bytes cached = false ->
            exists result w',
              calculate_monthly_revenue env property_id tenant_id month year
                = Ok result
              /\ get_revenue_summary json env property_id tenant_id month year w
                 = (w', Ok result)
              /\ aggregator_calls w' = (aggregator_calls w ++ [call])%list
              /\ redis_store (redis_client w') !! key
                 = Some (mkRedisEntry (json_dumps json result)
                           (redis_time (redis_client w) + 300))
              /\ forall w2 r2,
                   get_revenue_summary json env' property_id tenant_id month year
                     (elapse dt w') = (w2, r2) ->
                   aggregator_calls w2 = aggregator_calls w'
                   /\ r2 = json_loads json (json_dumps json result)) as Hmiss.
  { intros cached Hc Hfalse.
    destruct (calculate_monthly_revenue_total env property_id tenant_id
                month year) as (result & Hcalc).
    pose proof (get_revenue_summary_miss json _ _ _ _ _ _ _ _ Hc Hfalse Hcalc)
      as Hrun.
    unfold redis_setex in Hrun. rewrite Hset in Hrun. simpl in Hrun.
    match type of Hrun with _ = (?x, _) => set (w' := x) in * end.
    exists result, w'. split; [exact Hcalc|]. split; [exact Hrun|].
    split; [reflexivity|]. split; [apply lookup_insert_eq|].
    intros w2 r2 Hsecond.
    assert (redis_get (redis_client (elapse dt w')) key
            = Ok (Some (json_dumps json result))) as Hfresh.
    { subst w'. rewrite redis_get_elapse.
      cbn [redis_client redis_get_error redis_store redis_time].
      rewrite Hget. simpl. fold key.
      rewrite lookup_insert_eq. cbn [entry_expires_at entry_value].
      destruct (Z.ltb_spec (redis_time (redis_client w) + dt)
                  (redis_time (redis_client w) + 300)); [reflexivity | lia]. }
    rewrite (get_revenue_summary_hit json env' _ _ _ _ _ _ Hfresh) in Hsecond.
    - injection Hsecond as <- <-. split; reflexivity.
    - simpl. specialize (Hdumps result).
      destruct (json_dumps json result); [contradiction | reflexivity]. }
  split; [|split].
  - intros cached Hc Hne.
    rewrite (get_revenue_summary_hit json _ _ _ _ _ _ _ Hc); [reflexivity|].
    destruct cached; [contradiction | reflexivity].
  - exact Hmiss.
  - intros w1 r1 w2 r2 Hfirst Hsecond.
    assert (exists cached, redis_get (redis_client w) key = Ok cached)
      as (cached & Hc)
      by (unfold redis_get; rewrite Hget; simpl; eauto).
    destruct (truthy_bytes cached) eqn:Hhit.
    + rewrite (get_revenue_summary_hit json _ _ _ _ _ _ _ Hc Hhit) in Hfirst.
      injection Hfirst as <- _.
      destruct (get_revenue_summary_calls _ _ _ _ _ _ _ _ _ Hsecond) as [E|E];
        rewrite E; simpl; [lia|]. rewrite length_app. simpl. lia.
    + destruct (Hmiss cached Hc Hhit) as (result & w' & _ & Hrun & Hcalls & _ & Hnext).
      rewrite Hrun in Hfirst. injection Hfirst as <- <-.
      destruct (Hnext w2 r2 Hsecond) as [E _].
      rewrite E, Hcalls, length_app. simpl. lia.
Qed.

(** Two calls for March 2024, ten seconds apart, over an empty cache. *)
Lemma cache_aside_witness :
  let first := get_revenue_summary sample_json sample_env "prop-ny" "tenant-a"
                 (Some 3) (Some 2024) world_up in
  let second := get_revenue_summary sample_json env_down "prop-ny" "tenant-a"
                  (Some 3) (Some 2024) (elapse 10 first.1) in
  (length (aggregator_calls second.1) <= 1)%nat.
Proof.
  intros first second.
  assert (forall d, json_dumps sample_json d <> "") as Hdumps
    by (intros d; simpl; discriminate).
  exact (proj2 (proj2 (cache_aside sample_json sample_env env_down
                         "prop-ny" "tenant-a" (Some 3) (Some 2024) world_up 10
                         eq_refl eq_refl Hdumps ltac:(lia)))
           first.1 first.2 second.1 second.2 eq_refl eq_refl).
Defined.

(** C6, as stated, fails: with the cache unreachable the call raises the
    cache's error, and with a cache that only refuses writes it raises
    after the aggregator has run. *)
Lemma cache_failure_reaches_the_caller :
  get_revenue_summary sample_json sample_env "prop-ny" "tenant-a"
    (Some 3) (Some 2024) world_down
    = (world_down, Raise ConnectionError)
  /\ get_revenue_summary sample_json sample_env "prop-ny" "tenant-a"
       (Some 3) (Some 2024) world_read_only
     = (mkWorld redis_read_only
          [mkCall "prop-ny" "tenant-a" (Some 3) (Some 2024)],
        Raise ConnectionError).
Proof. split; vm_compute; reflexivity. Qed.

(** C6 (amended). [get_revenue_summary] does not handle failures of the
    cache: a failed read is raised to the caller before the aggregator is
    called; on a miss, a failed write is raised to the caller after the
    aggregator was called, its summary lost; when neither fails, a miss
    returns the aggregator's summary. *)
Theorem cache_failure_surfaces
    (json : Json) (env : Env) (property_id tenant_id : string)
    (month year : option Z) (w : World) :
  let key := cache_key property_id tenant_id month year in
  let call := mkCall property_id tenant_id month year in
  (forall e,
     redis_get_error (redis_client w) = Some e ->
     get_revenue_summary json env property_id tenant_id month year w
       = (w, Raise e))
  /\ (forall e cached,
        redis_get (redis_client w) key = Ok cached ->
        truthy_bytes cached = false ->
        redis_setex_error (redis_client w) = Some e ->
        get_revenue_summary json env property_id tenant_id month year w
          = (mkWorld (redis_client w) (aggregator_calls w ++ [call]), Raise e))
  /\ (forall cached,
        redis_get (redis_client w) key = Ok cached ->
        truthy_bytes cached = false ->
        redis_setex_error (redis_client w) = None ->
        exists w',
          get_revenue_summary json env property_id tenant_id month year w
            = (w', calculate_monthly_revenue env property_id tenant_id
                     month year)).
Proof.
  intros key call. split; [|split].
  - intros e He. apply get_revenue_summary_read_error. assumption.
  - intros e cached Hc Hmiss He.
    destruct (calculate_monthly_revenue_total env property_id tenant_id
                month year) as (result & Hcalc).
    rewrite (get_revenue_summary_miss json _ _ _ _ _ _ _ _ Hc Hmiss Hcalc).
    unfold redis_setex. rewrite He. reflexivity.
  - intros cached Hc Hmiss Hset.
    destruct (calculate_monthly_revenue_total env property_id tenant_id
                month year) as (result & Hcalc).
    rewrite (get_revenue_summary_miss json _ _ _ _ _ _ _ _ Hc Hmiss Hcalc).
    unfold redis_setex. rewrite Hset, Hcalc. simpl. eauto.
Qed.

(** The cache down, then read-only, then in order. *)
Lemma cache_failure_surfaces_witness :
  get_revenue_summary sample_json sample_env "prop-ny" "tenant-a"
    (Some 3) (Some 2024) world_down = (world_down, Raise ConnectionError)
  /\ get_revenue_summary sample_json sample_env "prop-ny" "tenant-a"
       (Some 3) (Some 2024) world_read_only
     = (mkWorld redis_read_only
          [mkCall "prop-ny" "tenant-a" (Some 3) (Some 2024)],
        Raise ConnectionError).
Proof.
  split.
  - exact (proj1 (cache_failure_surfaces sample_json sample_env "prop-ny"
                    "tenant-a" (Some 3) (Some 2024) world_down)
             ConnectionError eq_refl).
  - exact (proj1 (proj2 (cache_failure_surfaces sample_json sample_env
                           "prop-ny" "tenant-a" (Some 3) (Some 2024)
                           world_read_only))
             ConnectionError None eq_refl eq_refl eq_refl).
Defined.

(** With the pool down and no month or year, the summary of "prop-002" is
    the table's. *)
Lemma calculate_monthly_revenue_never_raises_witness :
  exists s,
    calculate_monthly_revenue env_down "prop-002" "tenant-a" None None = Ok s
    /\ well_formed s
    /\ monthly_handler "prop-002" "tenant-a" (mkPeriod None None) = Ok s.
Proof.
  destruct (calculate_monthly_revenue_never_raises env_down "prop-002"
              "tenant-a" None None) as (s & Hs & Hwf & Hh).
  exists s. split; [exact Hs|]. split; [exact Hwf|].
  exact (Hh (mkPeriod None None) DatabaseError eq_refl).
Defined.

(** With the pool down the two entry points agree on "prop-003". *)
Lemma total_revenue_same_fallback_witness :
  exists s_total s_month,
    calculate_total_revenue env_down "prop-003" "tenant-a" = Ok s_total
    /\ calculate_monthly_revenue env_down "prop-003" "tenant-a" (Some 3) (Some 2024)
       = Ok s_month
    /\ s_total !! "total" = s_month !! "total"
    /\ s_total !! "count" = s_month !! "count"
    /\ s_total !! "month" = None.
Proof.
  destruct (total_revenue_same_fallback env_down "prop-003" "tenant-a"
              (Some 3) (Some 2024)) as (s_total & Hs & Hm & _ & _ & Hdown).
  destruct (Hdown ltac:(right; left; discriminate))
    as (s_month & Hsm & Ht & Hc & _).
  exists s_total, s_month. repeat split; assumption.
Defined.

(* ===================================================================== *)
(** * Part III: further properties of the three modules *)
(* ===================================================================== *)

Lemma M_bind_Raise_inv {S A B} (m : M S A) (f : A -> M S B) s s' e :
  (m ≫= f) s = (s', Raise e) ->
  m s = (s', Raise e) \/ exists s1 a, m s = (s1, Ok a) /\ f a s1 = (s', Raise e).
Proof.
  unfold mbind, M_bind. destruct (m s) as [s1 [a|e']]; [eauto | intros [= <- <-]; auto].
Qed.

Lemma lift_Raise_inv {S A} (r : result A) (s s' : S) e :
  lift r s = (s', Raise e) -> s' = s /\ r = Raise e.
Proof. unfold lift. intros [= -> ->]. auto. Qed.

Lemma resolve_period_Raise env tz pid tid p0 p' e :
  resolve_period env tz pid tid p0 = (p', Raise e) -> p' = p0.
Proof.
  unfold resolve_period, mbind, M_bind, get_state, lift, put_state.
  destruct (negb _ || negb _); [|discriminate].
  destruct (_get_latest_check_in _ _ _) as [[latest|]|]; try (intros [= <- _]; reflexivity).
  - destruct (astimezone _ _ _); [discriminate | intros [= <- _]; reflexivity].
  - destruct (astimezone _ _ _); [discriminate | intros [= <- _]; reflexivity].
Qed.

Ltac step_lift H :=
  let H1 := fresh "Hstep" in
  apply M_bind_Raise_inv in H as [H|(? & ? & H1 & H)];
  [apply lift_Raise_inv in H as [-> _]; left; reflexivity
  |apply lift_Ok_inv in H1 as [-> _]].

Lemma monthly_body_Raise_period env pid tid p0 p' e :
  monthly_body env pid tid p0 = (p', Raise e) ->
  p' = p0
  \/ exists property_tz local_tz,
       resolve_timezone env pid tid = Ok (property_tz, local_tz)
       /\ resolve_period env local_tz pid tid p0 = (p', Ok tt).
Proof.
  unfold monthly_body. intros H.
  do 4 step_lift H.
  apply M_bind_Raise_inv in H as [H|(? & [property_tz local_tz] & Htz & H)];
    [apply lift_Raise_inv in H as [-> _]; left; reflexivity
    |apply lift_Ok_inv in Htz as [-> Htz]].
  apply M_bind_Raise_inv in H as [H|(p1 & [] & Hper & H)].
  { left. eapply resolve_period_Raise. exact H. }
  right. exists property_tz, local_tz. split; [assumption|].
  assert (p' = p1) as ->; [|assumption].
  apply M_bind_Raise_inv in H as [H|(? & p2 & Hget & H)]; [discriminate|].
  unfold get_state in Hget. injection Hget as <- <-.
  repeat (let H1 := fresh "Hstep" in
          apply M_bind_Raise_inv in H as [H|(? & ? & H1 & H)];
          [apply lift_Raise_inv in H as [-> _]; reflexivity
          |apply lift_Ok_inv in H1 as [-> _]];
          try match type of H with (let '(_, _) := ?x in _) _ = _ =>
                destruct x end).
  discriminate.
Qed.

Lemma datetime_ymd_Ok_range y m d w :
  datetime_ymd y m d = Ok w -> 1 <= y <= 9999 /\ 1 <= m <= 12.
Proof.
  unfold datetime_ymd, MINYEAR, MAXYEAR.
  destruct (_ && _) eqn:E; [|discriminate]. intros _.
  repeat (apply andb_prop in E as [E ?]). lia.
Qed.

Lemma month_bounds_Ok_range tz y m b :
  month_bounds tz y m = Ok b -> 1 <= y <= 9999 /\ 1 <= m <= 12.
Proof.
  unfold month_bounds. intros H.
  apply bind_Ok_inv in H as (sl & Hsl & _).
  eapply datetime_ymd_Ok_range. exact Hsl.
Qed.









Lemma split_at_separator c a a' b b' :
  occurs c a = false -> occurs c a' = false ->
  a +:+ String c b = a' +:+ String c b' -> a = a' /\ b = b'.
Proof.
  revert a'. induction a as [|x a IH]; intros [|x' a'] Ha Ha' H; simpl in *.
  - injection H as ->. auto.
  - injection H as <- _. rewrite Ascii.eqb_refl in Ha'. discriminate.
  - injection H as -> _. rewrite Ascii.eqb_refl in Ha. discriminate.
  - injection H as -> H.
    apply orb_false_elim in Ha as [_ Ha]. apply orb_false_elim in Ha' as [_ Ha'].
    destruct (IH a' Ha Ha' H) as [-> ->]. auto.
Qed.



(** With a colon inside the ids two tenants can meet on one key. *)
Example cache_key_collision :
  cache_key "c" "a:b" None None = cache_key "b:c" "a" None None.
Proof. reflexivity. Qed.








Lemma days_before_year_succ y :
  _days_before_year (y + 1)
  = _days_before_year y + (if _is_leap y then 366 else 365).
Proof.
  unfold _days_before_year, _is_leap.
  replace (y + 1 - 1) with y by lia.
  destruct (Z.eqb_spec (y mod 4) 0), (Z.eqb_spec (y mod 100) 0),
    (Z.eqb_spec (y mod 400) 0); simpl; Z.div_mod_to_equations; lia.
Qed.

Lemma days_in_month_bounds y m : 1 <= m <= 12 -> 28 <= _days_in_month y m <= 31.
Proof.
  intros Hm. unfold _days_in_month.
  pose proof (month_cases m Hm) as Hcase; destruct_or! Hcase; subst m;
    destruct (_is_leap y); split; apply Z.leb_le; reflexivity.
Qed.

Lemma month_length y m :
  1 <= m <= 12 ->
  next_month_midnight y m - midnight y m 1 = _days_in_month y m * DAY.
Proof.
  intros Hm. unfold next_month_midnight, midnight, _ymd2ord.
  destruct (Z.eqb_spec m 12) as [->|Hne].
  - rewrite days_before_year_succ.
    assert (_days_before_month (y + 1) 1 = 0) as ->
      by (unfold _days_before_month; destruct (_is_leap (y + 1)); reflexivity).
    assert (_days_before_month y 12 = 334 + (if _is_leap y then 1 else 0)) as ->
      by (unfold _days_before_month; destruct (_is_leap y); reflexivity).
    assert (_days_in_month y 12 = 31) as ->
      by (unfold _days_in_month; destruct (_is_leap y); reflexivity).
    unfold DAY. destruct (_is_leap y); lia.
  - assert (_days_before_month y (m + 1) - _days_before_month y m
            = _days_in_month y m) as <-.
    { unfold _days_before_month, _days_in_month.
      pose proof (month_cases m Hm) as Hcase; destruct_or! Hcase; subst m;
        try lia; destruct (_is_leap y); reflexivity. }
    lia.
Qed.





Lemma truthy_str_Some o : truthy_str o = true -> exists t, o = Some t /\ t <> "".
Proof. destruct o as [[|a t]|]; try discriminate. intros _. eexists. split; [reflexivity | discriminate]. Qed.

Lemma query_in_bounds_spec lo hi o :
  query_in_bounds lo hi o = true <-> (o = None \/ exists z, o = Some z /\ lo <= z <= hi).
Proof.
  destruct o as [z|]; simpl.
  - rewrite andb_true_iff, !Z.leb_le. split.
    + intros H. right. exists z. auto.
    + intros [H|(z' & [= <-] & H)]; [discriminate | assumption].
  - split; auto.
Qed.



Lemma quantize_at_two_places d q :
  quantize_cents_half_up d = Ok q ->
  q = NaN \/ exists negative coefficient, q = Finite (mkFinite negative coefficient (- 2)).
Proof.
  destruct d as [f|neg|]; simpl.
  - destruct (_ <? _); [|discriminate]. intros [= <-]. right. eauto.
  - discriminate.
  - intros [= <-]. left. reflexivity.
Qed.


